(** * mendeleev.vis.plotly: periodic-table and electronegativity charts

    A shallow embedding of [src/mendeleev/vis/plotly.py].

    The Python module builds declarative descriptors (tiles, annotations,
    axis settings) from the rows of a pandas [DataFrame] and hands them to
    the plotly chart engine.  The embedding keeps that split:

    - pandas is modelled by a small table type: named, typed columns
      ([float64], [int64], [object]), rows read back as label/value
      series, columns assigned by name;
    - plotly objects ([Shape], [Annotation], [Figure]) are records of the
      keyword arguments the module passes to their constructors; what
      plotly itself checks about an argument (that a colour is a colour,
      that a text is a string or a number, that a font size or a height
      is in range) belongs to the chart engine and is left out, and so
      is what pandas checks when values are written into an existing
      column: where they refuse, the call raises and returns nothing, so
      the properties of a descriptor or of a chart are stated of the one
      a call returns;
    - Python floats are IEEE binary64 numbers, i.e. Rocq's primitive
      [float]; a decimal literal such as [0.45] denotes the nearest
      binary64 value, in Python and here alike;
    - exceptions are values of [exn], carried by the [result] type. *)

From Stdlib Require Import List String Ascii ZArith Bool Floats Lia.
Import ListNotations.

Set Warnings "-inexact-float".
Local Open Scope string_scope.

(** ** Exceptions and fallible computations *)

Inductive exn : Type :=
| ValueError (msg : string)
| KeyError (key : string)
| TypeError
| OverflowError.

Inductive result (A : Type) : Type :=
| OK (a : A)
| Raise (e : exn).

Arguments OK {A} a.
Arguments Raise {A} e.

Definition rbind {A B : Type} (m : result A) (k : A -> result B) : result B :=
  match m with
  | OK a => k a
  | Raise e => Raise e
  end.

Notation "'let?' x ':=' m 'in' k" := (rbind m (fun x => k))
  (at level 10, x name, m at level 100, k at level 200).

(** [mapM f l] applies [f] to the elements of [l] from left to right and
    stops at the first exception, as a Python comprehension does. *)
Fixpoint mapM {A B : Type} (f : A -> result B) (l : list A) : result (list B) :=
  match l with
  | [] => OK []
  | a :: t =>
      let? b := f a in
      let? bs := mapM f t in
      OK (b :: bs)
  end.

Definition dflt {A : Type} (d : A) (o : option A) : A :=
  match o with
  | Some a => a
  | None => d
  end.

(** ** Python values held in table cells *)

Inductive value : Type :=
| VFloat (f : float)
| VInt (n : Z)
| VStr (s : string)
| VNone.

(** Conversion of an integer to binary64, rounding to nearest even. *)
Definition Z_to_float (z : Z) : float :=
  SF2Prim (binary_normalize prec emax z 0 false).

(** The float operand of [v - d] and [v + d] for a float [d]: a float is
    taken as it is, an int is converted (Python raises [OverflowError] for
    an int beyond the binary64 range), anything else is a [TypeError]. *)
Definition as_float (v : value) : result float :=
  match v with
  | VFloat f => OK f
  | VInt n =>
      let f := Z_to_float n in
      if is_infinity f then Raise OverflowError else OK f
  | VStr _ => Raise TypeError
  | VNone => Raise TypeError
  end.

Definition py_sub (v : value) (d : float) : result float :=
  let? f := as_float v in OK (f - d)%float.

Definition py_add (v : value) (d : float) : result float :=
  let? f := as_float v in OK (f + d)%float.

(** ** Rows: [pd.Series] indexed by column label *)

Definition Series : Type := list (string * value).

(** [row[key]]: the value at the first matching label, [KeyError]
    otherwise. *)
Fixpoint getitem (row : Series) (key : string) : result value :=
  match row with
  | [] => Raise (KeyError key)
  | (k, v) :: t => if String.eqb k key then OK v else getitem t key
  end.

(** ** plotly descriptors *)

Module Shape.
Record t : Type := mk {
  type : string;
  x0 : float;
  y0 : float;
  x1 : float;
  y1 : float;
  line_color : value;
  fillcolor : value;
  opacity : float
}.
End Shape.

Module Font.
Record t : Type := mk {
  family : string;
  size : Z;
  color : string
}.
End Font.

Module Annotation.
Record t : Type := mk {
  x : float;
  y : float;
  xref : string;
  yref : string;
  text : value;
  showarrow : bool;
  font : Font.t;
  align : string;
  opacity : float
}.
End Annotation.

(** [create_tile(element, color, x_offset=0.45, y_offset=0.45)].  The
    keyword arguments of [Shape(...)] are evaluated in the order they are
    written, which fixes the exception raised when several lookups fail. *)
Definition create_tile (element : Series) (color : string)
    (x_offset y_offset : option float) : result Shape.t :=
  let x_offset := dflt 0.45%float x_offset in
  let y_offset := dflt 0.45%float y_offset in
  let? ex := getitem element "x" in
  let? x0 := py_sub ex x_offset in
  let? ey := getitem element "y" in
  let? y0 := py_sub ey y_offset in
  let? ex := getitem element "x" in
  let? x1 := py_add ex x_offset in
  let? ey := getitem element "y" in
  let? y1 := py_add ey y_offset in
  let? line := getitem element color in
  let? fill := getitem element color in
  OK (Shape.mk "rect" x0 y0 x1 y1 line fill 0.8%float).

(** [create_annotation(row, attr, size=10, x_offset=0.0, y_offset=0.0)]. *)
Definition create_annotation (row : Series) (attr : string)
    (size : option Z) (x_offset y_offset : option float)
    : result Annotation.t :=
  let size := dflt 10%Z size in
  let x_offset := dflt 0.0%float x_offset in
  let y_offset := dflt 0.0%float y_offset in
  let? rx := getitem row "x" in
  let? x := py_add rx x_offset in
  let? ry := getitem row "y" in
  let? y := py_add ry y_offset in
  let? text := getitem row attr in
  OK (Annotation.mk x y "x" "y" text false
        (Font.mk "Roboto" size "#333333") "center" 0.9%float).

(** ** pandas tables *)

Inductive dtype : Type := float64 | int64 | object.

(** A column holds the data of one dtype.  A missing number in a
    [float64] column is [nan]. *)
Inductive column : Type :=
| FloatCol (l : list float)
| IntCol (l : list Z)
| ObjCol (l : list value).

(** A [DataFrame]: the length of its index and its labelled columns, in
    column order. *)
Record DataFrame : Type := mkDataFrame {
  nrows : nat;
  columns : list (string * column)
}.

Definition col_dtype (c : column) : dtype :=
  match c with
  | FloatCol _ => float64
  | IntCol _ => int64
  | ObjCol _ => object
  end.

Definition col_length (c : column) : nat :=
  match c with
  | FloatCol l => List.length l
  | IntCol l => List.length l
  | ObjCol l => List.length l
  end.

(** [col in elements.columns] *)
Definition in_columns (elements : DataFrame) (col : string) : bool :=
  existsb (String.eqb col) (map fst (columns elements)).

Fixpoint lookup (cols : list (string * column)) (key : string) : option column :=
  match cols with
  | [] => None
  | (k, c) :: t => if String.eqb k key then Some c else lookup t key
  end.

(** [elements[key]] *)
Definition df_getitem (elements : DataFrame) (key : string) : result column :=
  match lookup (columns elements) key with
  | Some c => OK c
  | None => Raise (KeyError key)
  end.

(** Assigning a column by label replaces the column of that label where
    it stands, or appends a new last column. *)
Fixpoint assign (cols : list (string * column)) (key : string) (c : column)
    : list (string * column) :=
  match cols with
  | [] => [(key, c)]
  | (k, c') :: t =>
      if String.eqb k key then (k, c) :: t else (k, c') :: assign t key c
  end.

(** [elements[key] = c] *)
Definition df_setitem (elements : DataFrame) (key : string) (c : column)
    : DataFrame :=
  mkDataFrame (nrows elements) (assign (columns elements) key c).

(** A table is well formed when its column labels are distinct and every
    column has one entry per row. *)
Fixpoint unique_labels (names : list string) : bool :=
  match names with
  | [] => true
  | k :: t => negb (existsb (String.eqb k) t) && unique_labels t
  end.

Definition well_formed (elements : DataFrame) : bool :=
  unique_labels (map fst (columns elements))
  && forallb (fun kc => Nat.eqb (col_length (snd kc)) (nrows elements))
             (columns elements).

(** The dtype a row is read in: [object] as soon as one column is, else
    [float64] as soon as one column is, else [int64]. *)
Definition join_dtype (a b : dtype) : dtype :=
  match a, b with
  | object, _ => object
  | _, object => object
  | float64, _ => float64
  | _, float64 => float64
  | int64, int64 => int64
  end.

Definition common_dtype (cols : list (string * column)) : dtype :=
  fold_right (fun kc d => join_dtype (col_dtype (snd kc)) d) int64 cols.

(** The cell of column [c] at position [i], as it appears in a row read
    in dtype [d]: integers become floats in a [float64] row. *)
Definition cell (d : dtype) (c : column) (i : nat) : value :=
  match c with
  | FloatCol l => VFloat (nth i l nan)
  | IntCol l =>
      let n := nth i l 0%Z in
      match d with
      | float64 => VFloat (Z_to_float n)
      | _ => VInt n
      end
  | ObjCol l => nth i l VNone
  end.

Definition row_at (elements : DataFrame) (i : nat) : Series :=
  map (fun kc => (fst kc, cell (common_dtype (columns elements)) (snd kc) i))
      (columns elements).

(** The rows of [elements.iterrows()], in index order. *)
Definition iterrows (elements : DataFrame) : list Series :=
  map (row_at elements) (seq 0 (nrows elements)).

(** [tuple(elements.apply(f, axis=1, raw=False, ...))]: [f] on every row,
    in index order. *)
Definition apply_rows {B : Type} (elements : DataFrame)
    (f : Series -> result B) : result (list B) :=
  mapM f (iterrows elements).

Definition is_float_dtype (c : column) : bool :=
  match col_dtype c with
  | float64 => true
  | _ => false
  end.

(** *** Rounding, as numpy does it for [float64] data *)

(** [rint]: the nearest integer, ties to even; zeros, infinities and
    [nan] are returned as they are. *)
Definition rint (f : float) : float :=
  match Prim2SF f with
  | S754_finite s m e =>
      if (0 <=? e)%Z then f
      else
        let d := (2 ^ (- e))%Z in
        let q := (Zpos m / d)%Z in
        let r := (Zpos m mod d)%Z in
        let q' :=
          if (2 * r <? d)%Z then q
          else if (d <? 2 * r)%Z then (q + 1)%Z
          else if Z.even q then q else (q + 1)%Z in
        let a := Z_to_float q' in
        if s then (- a)%float else a
  | _ => f
  end.

(** [10.0 ** n] by repeated multiplication. *)
Fixpoint power_of_ten (n : nat) : float :=
  match n with
  | O => 1%float
  | S k => (power_of_ten k * 10)%float
  end.

(** [np.round(x, decimals)]: scale, [rint], scale back. *)
Definition np_round (decimals : Z) (x : float) : float :=
  if (0 <=? decimals)%Z then
    let f := power_of_ten (Z.to_nat decimals) in
    (rint (x * f) / f)%float
  else
    let f := power_of_ten (Z.to_nat (- decimals)) in
    (rint (x / f) * f)%float.

(** [col.round(decimals=decimals)] on a [float64] column, the only use
    the module makes of it; other columns are returned as they are. *)
Definition round (c : column) (decimals : Z) : column :=
  match c with
  | FloatCol l => FloatCol (map (np_round decimals) l)
  | _ => c
  end.

(** ** The chart object *)

Module Axis.
Record t : Type := mk {
  range : option (list float);
  showgrid : option bool;
  fixedrange : option bool;
  side : option string;
  tickvals : option (list Z);
  title : option string
}.

Definition empty : t := mk None None None None None None.
End Axis.

Module Figure.
Record t : Type := mk {
  shapes : list Shape.t;
  annotations : list Annotation.t;
  template : option string;
  height : option Z;
  width : option Z;
  title : option string;
  xaxis : Axis.t;
  yaxis : Axis.t
}.

(** [go.Figure()] *)
Definition empty : t :=
  mk [] [] None None None None Axis.empty Axis.empty.

(** [fig.layout["shapes"] += tuple(tiles)] *)
Definition add_shapes (fig : t) (tiles : list Shape.t) : t :=
  mk (shapes fig ++ tiles) (annotations fig) (template fig) (height fig)
     (width fig) (title fig) (xaxis fig) (yaxis fig).

(** [fig.layout["annotations"] += tuple(anns)] *)
Definition add_annotations (fig : t) (anns : list Annotation.t) : t :=
  mk (shapes fig) (annotations fig ++ anns) (template fig) (height fig)
     (width fig) (title fig) (xaxis fig) (yaxis fig).

(** [fig.update_layout(template=.., height=.., width=.., title=..,
    xaxis={..}, yaxis={..})]: the scalar properties are set, and each
    axis dictionary updates the properties it names on the figure's
    axis, given here as a function of that axis. *)
Definition update_layout (fig : t) (template : string) (height width : Z)
    (title : string) (xaxis yaxis : Axis.t -> Axis.t) : t :=
  mk (shapes fig) (annotations fig) (Some template) (Some height)
     (Some width) (Some title) (xaxis (Figure.xaxis fig))
     (yaxis (Figure.yaxis fig)).
End Figure.

(** [range(lo, hi)] *)
Definition py_range (lo hi : Z) : list Z :=
  map (fun k => (lo + Z.of_nat k)%Z) (seq 0 (Z.to_nat (hi - lo))).

(** The keyword arguments of [periodic_table_plotly]. *)
Record params : Type := mkParams {
  attribute : string;
  cmap : string;
  colorby : string;
  decimals : Z;
  height : Z;
  missing : string;
  title : string;
  wide_layout : bool;
  width : Z
}.

Definition default_params : params :=
  mkParams "atomic_weight" "RdBu_r" "color" 3 800 "#ffffff" "Periodic Table"
           false 1200.

Definition coordinates_required : string :=
  "Coordinate columns named 'x' and 'y' are required in 'elements' DataFrame. Consider using 'mendeleev.vis.utils.create_vis_dataframe' and try again.".

(** ** Computations that mutate the caller's table

    [periodic_table_plotly] receives the caller's [DataFrame] object and
    assigns columns to it.  A computation is a function of the table's
    state that returns an outcome and the table's state afterwards; an
    exception keeps the state reached when it was raised. *)

Definition M (A : Type) : Type := DataFrame -> result A * DataFrame.

Definition ret {A : Type} (a : A) : M A := fun df => (OK a, df).

Definition bind {A B : Type} (m : M A) (k : A -> M B) : M B :=
  fun df =>
    match m df with
    | (OK a, df') => k a df'
    | (Raise e, df') => (Raise e, df')
    end.

Definition raise {A : Type} (e : exn) : M A := fun df => (Raise e, df).

Definition lift {A : Type} (r : result A) : M A := fun df => (r, df).

(** The table as it stands. *)
Definition table : M DataFrame := fun df => (OK df, df).

(** [elements[key] = c] *)
Definition setitem (key : string) (c : column) : M unit :=
  fun df => (OK tt, df_setitem df key c).

(** [elements.loc[:, key] = values] for a list of values: the list must
    have one value per row. *)
Definition loc_setitem (key : string) (values : list value) : M unit :=
  fun df =>
    if Nat.eqb (List.length values) (nrows df)
    then (OK tt, df_setitem df key (ObjCol values))
    else (Raise (ValueError "Length of values does not match length of index"), df).

Notation "x <- m ;; k" := (bind m (fun x => k))
  (at level 61, m at next level, right associativity).

Section PeriodicTable.

(** [mendeleev.vis.utils.colormap_column(elements, column, cmap, missing)]
    is defined outside this module: it maps the values of [column] to
    hex colour strings, one per row. *)
Variable colormap_column :
  DataFrame -> string -> string -> string -> result (list string).

Definition periodic_table_plotly (p : params) : M Figure.t :=
  elements <- table ;;
  if existsb (fun col => negb (in_columns elements col)) ["x"; "y"]
  then raise (ValueError coordinates_required)
  else
    let fig := Figure.empty in
    colorby <-
      (if String.eqb (colorby p) "attribute" then
         colored <- lift (colormap_column elements (attribute p) (cmap p)
                                          (missing p)) ;;
         _ <- loc_setitem "attribute_color" (map VStr colored) ;;
         ret "attribute_color"
       else ret (colorby p)) ;;
    (* tiles *)
    elements <- table ;;
    tiles <- lift (mapM (fun row => create_tile row colorby None None)
                        (iterrows elements)) ;;
    let fig := Figure.add_shapes fig tiles in
    (* symbols *)
    anns <- lift (apply_rows elements (fun row =>
              create_annotation row "symbol" (Some 16%Z) None None)) ;;
    let fig := Figure.add_annotations fig anns in
    (* atomic_number *)
    anns <- lift (apply_rows elements (fun row =>
              create_annotation row "atomic_number" None None
                                (Some (-0.3)%float))) ;;
    let fig := Figure.add_annotations fig anns in
    (* name *)
    anns <- lift (apply_rows elements (fun row =>
              create_annotation row "name" (Some 7%Z) None
                                (Some 0.2%float))) ;;
    let fig := Figure.add_annotations fig anns in
    let ac := "display_attribute" in
    col <- lift (df_getitem elements (attribute p)) ;;
    _ <- (if is_float_dtype col
          then setitem ac (round col (decimals p))
          else setitem ac col) ;;
    (* attribute *)
    elements <- table ;;
    anns <- lift (apply_rows elements (fun row =>
              create_annotation row ac (Some 7%Z) None
                                (Some 0.35%float))) ;;
    let fig := Figure.add_annotations fig anns in
    let '(tickvals, xrange, yrange) :=
      if wide_layout p
      then (None, [0.5; 32.5]%float, [7.5; 0.5]%float)
      else (Some (py_range 1 19), [0.5; 18.5]%float, [10.0; 0.5]%float) in
    ret (Figure.update_layout fig "plotly_white" (height p) (width p)
           (title p)
           (fun xaxis =>
              Axis.mk (Some xrange) (Some false) (Some true) (Some "top")
                      tickvals (Axis.title xaxis))
           (fun yaxis =>
              Axis.mk (Some yrange) (Some false) (Some true)
                      (Axis.side yaxis) (Some (py_range 1 8))
                      (Some "Period"))).

End PeriodicTable.

(** ** Python string methods used by [plot_scale]

    Strings are sequences of 8-bit characters; letter case is that of the
    ASCII letters. *)

Definition mem_char (c : ascii) (chars : string) : bool :=
  existsb (Ascii.eqb c) (list_ascii_of_string chars).

(** The longest suffix of [l] that does not start with a character of
    [chars]. *)
Fixpoint lstrip_list (chars : string) (l : list ascii) : list ascii :=
  match l with
  | [] => []
  | c :: t => if mem_char c chars then lstrip_list chars t else l
  end.

(** [s.strip(chars)]: the characters of [chars] are removed from both ends
    of [s], in any number and any order. *)
Definition strip (s chars : string) : string :=
  let l := lstrip_list chars (list_ascii_of_string s) in
  string_of_list_ascii (rev (lstrip_list chars (rev l))).

(** [s.split(sep)] for a separator of one character. *)
Fixpoint split (s : string) (sep : ascii) : list string :=
  match s with
  | EmptyString => [EmptyString]
  | String c t =>
      if Ascii.eqb c sep then EmptyString :: split t sep
      else
        match split t sep with
        | [] => [String c EmptyString]
        | w :: ws => String c w :: ws
        end
  end.

Definition is_upper (c : ascii) : bool :=
  (65 <=? nat_of_ascii c)%nat && (nat_of_ascii c <=? 90)%nat.

Definition is_lower (c : ascii) : bool :=
  (97 <=? nat_of_ascii c)%nat && (nat_of_ascii c <=? 122)%nat.

Definition to_upper (c : ascii) : ascii :=
  if is_lower c then ascii_of_nat (nat_of_ascii c - 32) else c.

Definition to_lower (c : ascii) : ascii :=
  if is_upper c then ascii_of_nat (nat_of_ascii c + 32) else c.

Fixpoint lower (s : string) : string :=
  match s with
  | EmptyString => EmptyString
  | String c t => String (to_lower c) (lower t)
  end.

(** [str.capitalize]: first character in upper case, the rest in lower
    case. *)
Definition capitalize (s : string) : string :=
  match s with
  | EmptyString => EmptyString
  | String c t => String (to_upper c) (lower t)
  end.

(** [sep.join(words)] *)
Definition join (sep : string) (words : list string) : string :=
  String.concat sep words.

(** ** The electronegativity scale chart *)

Module Scatter.
Record t : Type := mk {
  y : column;
  text : column;
  template : string;
  height : Z;
  width : Z;
  title : string;
  textposition : option string;
  textfont_size : option Z;
  marker_size : option Z;
  marker_color : option string;
  font_size : option Z;
  xaxis_title : option string;
  xaxis_zeroline : option bool;
  xaxis_range : option (list Z);
  yaxis_title : option string
}.
End Scatter.

(** [px.scatter(data, y=y, template=.., height=.., width=.., text=text,
    title=..)]: one point per row; a column name that is not in [data] is
    refused.  The axis titles plotly chooses are left unset here, the
    module replaces both. *)
Definition px_scatter (data : DataFrame) (y : string) (template : string)
    (height width : Z) (text : string) (title : string) : result Scatter.t :=
  match lookup (columns data) y with
  | None => Raise (ValueError "Value of 'y' is not the name of a column in 'data_frame'")
  | Some ycol =>
      match lookup (columns data) text with
      | None => Raise (ValueError "Value of 'text' is not the name of a column in 'data_frame'")
      | Some tcol =>
          OK (Scatter.mk ycol tcol template height width title
                         None None None None None None None None None)
      end
  end.

Definition scale_name (scale : string) : string :=
  join "-" (map capitalize (split (strip scale "en_") "_"%char)).

Definition plot_scale (data : DataFrame) (scale : string) : result Scatter.t :=
  let scale_name := scale_name scale in
  let? fig := px_scatter data scale "plotly_white" 600 1400 "symbol"
                         (scale_name ++ "'s Electronegativity") in
  (* update_traces, update_layout, update_xaxes, update_yaxes *)
  OK (Scatter.mk (Scatter.y fig) (Scatter.text fig) (Scatter.template fig)
                 (Scatter.height fig) (Scatter.width fig) (Scatter.title fig)
                 (Some "top center") (Some 10%Z) (Some 8%Z) (Some "#0081a7")
                 (Some 12%Z) (Some "Atomic Number") (Some false)
                 (Some [0; 119]%Z) (Some scale_name)).

(** ** Valid input

    A table on which every lookup of the assembler succeeds: it is well
    formed, the coordinate columns exist and hold numbers (a missing
    number, [nan], included), the four displayed columns exist, and the
    colour of a tile can be found, either in the column [colorby] names
    or through the colour mapper.  What the chart engine asks of a
    colour, a text or a size is not part of it. *)

Definition numeric (v : value) : bool :=
  match as_float v with
  | OK _ => true
  | Raise _ => false
  end.

Definition numeric_column (n : nat) (c : column) : bool :=
  match c with
  | FloatCol _ => true
  | IntCol l => forallb (fun z => numeric (VInt z)) l
  | ObjCol l => (n <=? List.length l)%nat && forallb numeric l
  end.

Definition has_numeric (elements : DataFrame) (key : string) : bool :=
  match lookup (columns elements) key with
  | Some c => numeric_column (nrows elements) c
  | None => false
  end.

(** The derived display column of an attribute column. *)
Definition display_column (col : column) (decimals : Z) : column :=
  if is_float_dtype col then round col decimals else col.

(** The values of a column, as Python objects. *)
Definition col_values (c : column) : list value :=
  match c with
  | FloatCol l => map VFloat l
  | IntCol l => map VInt l
  | ObjCol l => l
  end.

(** The column names after an assignment to [key]. *)
Definition names_after (names : list string) (key : string) : list string :=
  if existsb (String.eqb key) names then names else names ++ [key].

Section ValidInput.

Variable colormap_column :
  DataFrame -> string -> string -> string -> result (list string).

Definition valid_input (elements : DataFrame) (p : params) : bool :=
  well_formed elements
  && has_numeric elements "x" && has_numeric elements "y"
  && in_columns elements "symbol"
  && in_columns elements "atomic_number"
  && in_columns elements "name"
  && in_columns elements (attribute p)
  && (if String.eqb (colorby p) "attribute"
      then
        match colormap_column elements (attribute p) (cmap p) (missing p) with
        | OK colored => Nat.eqb (List.length colored) (nrows elements)
        | Raise _ => false
        end
      else in_columns elements (colorby p)).

(** The table and the colour column name after the colouring step. *)
Definition colored_by (elements : DataFrame) (p : params)
    (color : string) (elements1 : DataFrame) : Prop :=
  if String.eqb (colorby p) "attribute"
  then
    exists colored,
      colormap_column elements (attribute p) (cmap p) (missing p) = OK colored
      /\ List.length colored = nrows elements
      /\ color = "attribute_color"
      /\ elements1 =
         df_setitem elements "attribute_color" (ObjCol (map VStr colored))
  else color = colorby p /\ elements1 = elements.

(** What a successful call builds, step by step: the colouring step,
    the tiles and the first three annotation passes over the rows of the
    coloured table, the display column, the fourth pass over the rows
    of the final table, and the layout. *)
Inductive assembled (elements : DataFrame) (p : params)
    : Figure.t -> DataFrame -> Prop :=
| Assembled (color : string) (elements1 : DataFrame) (col : column)
    (tiles : list Shape.t) (sym num nam att : list Annotation.t) :
    in_columns elements "x" = true ->
    in_columns elements "y" = true ->
    colored_by elements p color elements1 ->
    lookup (columns elements1) (attribute p) = Some col ->
    mapM (fun row => create_tile row color None None)
         (iterrows elements1) = OK tiles ->
    mapM (fun row => create_annotation row "symbol" (Some 16%Z) None None)
         (iterrows elements1) = OK sym ->
    mapM (fun row => create_annotation row "atomic_number" None None
                       (Some (-0.3)%float))
         (iterrows elements1) = OK num ->
    mapM (fun row => create_annotation row "name" (Some 7%Z) None
                       (Some 0.2%float))
         (iterrows elements1) = OK nam ->
    mapM (fun row => create_annotation row "display_attribute" (Some 7%Z)
                       None (Some 0.35%float))
         (iterrows (df_setitem elements1 "display_attribute"
                      (display_column col (decimals p)))) = OK att ->
    assembled elements p
      (Figure.mk tiles (sym ++ num ++ nam ++ att)
         (Some "plotly_white") (Some (height p)) (Some (width p))
         (Some (title p))
         (Axis.mk
            (Some (if wide_layout p then [0.5; 32.5]%float
                   else [0.5; 18.5]%float))
            (Some false) (Some true) (Some "top")
            (if wide_layout p then None else Some (py_range 1 19))
            None)
         (Axis.mk
            (Some (if wide_layout p then [7.5; 0.5]%float
                   else [10.0; 0.5]%float))
            (Some false) (Some true) None
            (Some (py_range 1 8)) (Some "Period")))
      (df_setitem elements1 "display_attribute"
         (display_column col (decimals p))).

End ValidInput.


(** ** Two statements of the specification, as it words them

    The specification words the layout and the display values as
    follows; they are compared with what the code does below. *)

(** "With wide_layout=False, axis tick values are 1..18 (x) and 1..7 (y),
    and ranges are exactly [0.5,18.5] and [10.0,0.5]; with
    wide_layout=True, tick values are unset and ranges are [0.5,32.5] and
    [7.5,0.5]." *)
Definition axes_as_specified (wide : bool) (fig : Figure.t) : Prop :=
  if wide then
    Axis.tickvals (Figure.xaxis fig) = None
    /\ Axis.tickvals (Figure.yaxis fig) = None
    /\ Axis.range (Figure.xaxis fig) = Some [0.5; 32.5]%float
    /\ Axis.range (Figure.yaxis fig) = Some [7.5; 0.5]%float
  else
    Axis.tickvals (Figure.xaxis fig) = Some (py_range 1 19)
    /\ Axis.tickvals (Figure.yaxis fig) = Some (py_range 1 8)
    /\ Axis.range (Figure.xaxis fig) = Some [0.5; 18.5]%float
    /\ Axis.range (Figure.yaxis fig) = Some [10.0; 0.5]%float.

(** An integer rounded to [decimals] decimals: itself, or for negative
    [decimals] the nearest multiple of the power of ten, ties to even. *)
Definition round_int (decimals : Z) (n : Z) : Z :=
  if (0 <=? decimals)%Z then n
  else
    let m := (10 ^ (- decimals))%Z in
    let q := (n / m)%Z in
    let r := (n mod m)%Z in
    if (2 * r <? m)%Z then (q * m)%Z
    else if (m <? 2 * r)%Z then ((q + 1) * m)%Z
    else if Z.even q then (q * m)%Z else ((q + 1) * m)%Z.

(** "Numeric values are rounded to a configurable decimal count;
    non-numeric values pass through unchanged." *)
Definition round_value (decimals : Z) (v : value) : value :=
  match v with
  | VFloat f => VFloat (np_round decimals f)
  | VInt n => VInt (round_int decimals n)
  | VStr s => VStr s
  | VNone => VNone
  end.

Definition display_as_specified (decimals : Z) (col display : column) : Prop :=
  col_values display = map (round_value decimals) (col_values col).

(** ** Example tables *)

(** A colour mapper for the examples: it looks the column up and gives
    every row the colour of a missing value. *)
Definition plain_colormap (elements : DataFrame) (column cmap missing : string)
    : result (list string) :=
  match lookup (columns elements) column with
  | Some _ => OK (map (fun _ => missing) (seq 0 (nrows elements)))
  | None => Raise (KeyError column)
  end.

(** Hydrogen and helium, with a colour column. *)
Definition two_elements : DataFrame :=
  mkDataFrame 2
    [ ("atomic_number", IntCol [1; 2]%Z);
      ("symbol", ObjCol [VStr "H"; VStr "He"]);
      ("name", ObjCol [VStr "Hydrogen"; VStr "Helium"]);
      ("atomic_weight", FloatCol [1.008; 4.002602]%float);
      ("block", ObjCol [VStr "s-block"; VStr "s-block"]);
      ("x", IntCol [1; 18]%Z);
      ("y", IntCol [1; 1]%Z);
      ("color", ObjCol [VStr "#ff6666"; VStr "#c0ffff"]) ].

(** The same table without its "y" column. *)
Definition no_y_elements : DataFrame :=
  mkDataFrame 2
    [ ("atomic_number", IntCol [1; 2]%Z);
      ("symbol", ObjCol [VStr "H"; VStr "He"]);
      ("x", IntCol [1; 18]%Z) ].

(** A table whose attribute column "value" holds a float and a string,
    hence has dtype [object]. *)
Definition mixed_elements : DataFrame :=
  mkDataFrame 2
    [ ("atomic_number", IntCol [1; 2]%Z);
      ("symbol", ObjCol [VStr "H"; VStr "He"]);
      ("name", ObjCol [VStr "Hydrogen"; VStr "Helium"]);
      ("value", ObjCol [VFloat 7.1234; VStr "s-block"]);
      ("x", IntCol [1; 18]%Z);
      ("y", IntCol [1; 1]%Z);
      ("color", ObjCol [VStr "#ff6666"; VStr "#c0ffff"]) ].

(** A table whose float attribute column "value" holds 7.1234. *)
Definition float_elements : DataFrame :=
  mkDataFrame 2
    [ ("atomic_number", IntCol [1; 2]%Z);
      ("symbol", ObjCol [VStr "H"; VStr "He"]);
      ("name", ObjCol [VStr "Hydrogen"; VStr "Helium"]);
      ("value", FloatCol [7.1234; 4.002602]%float);
      ("x", IntCol [1; 18]%Z);
      ("y", IntCol [1; 1]%Z);
      ("color", ObjCol [VStr "#ff6666"; VStr "#c0ffff"]) ].

(** A table that already has columns named "attribute_color" and
    "display_attribute". *)
Definition reused_elements : DataFrame :=
  mkDataFrame 2
    [ ("display_attribute", ObjCol [VStr "old"; VStr "old"]);
      ("atomic_number", IntCol [1; 2]%Z);
      ("symbol", ObjCol [VStr "H"; VStr "He"]);
      ("name", ObjCol [VStr "Hydrogen"; VStr "Helium"]);
      ("atomic_weight", FloatCol [1.008; 4.002602]%float);
      ("attribute_color", ObjCol [VStr "#000000"; VStr "#000000"]);
      ("x", IntCol [1; 18]%Z);
      ("y", IntCol [1; 1]%Z) ].


Definition wide_params : params :=
  mkParams "atomic_weight" "RdBu_r" "color" 3 800 "#ffffff" "Periodic Table"
           true 1200.

Definition by_attribute_params : params :=
  mkParams "atomic_weight" "RdBu_r" "attribute" 3 800 "#ffffff"
           "Periodic Table" false 1200.

Definition value_params : params :=
  mkParams "value" "RdBu_r" "color" 2 800 "#ffffff" "Periodic Table"
           false 1200.

(** The row of hydrogen, at x = 1 and y = 1. *)
Definition hydrogen_row : Series :=
  [ ("atomic_number", VInt 1);
    ("symbol", VStr "H");
    ("name", VStr "Hydrogen");
    ("x", VInt 1);
    ("y", VInt 1);
    ("color", VStr "#ff6666") ].

(** Two electronegativity scales of hydrogen and helium. *)
Definition scales_data : DataFrame :=
  mkDataFrame 2
    [ ("symbol", ObjCol [VStr "H"; VStr "He"]);
      ("en_pauling", FloatCol [2.2; nan]%float);
      ("en_allen", FloatCol [13.61; 24.59]%float) ].

(** ** Vocabulary of the further properties *)

Definition is_ValueError (e : exn) : bool :=
  match e with
  | ValueError _ => true
  | _ => false
  end.

(** The row has a value under [key]. *)
Definition has_field (row : Series) (key : string) : bool :=
  match getitem row key with
  | OK _ => true
  | Raise _ => false
  end.

(** The row has a number under [key]. *)
Definition numeric_field (row : Series) (key : string) : bool :=
  match getitem row key with
  | OK v => numeric v
  | Raise _ => false
  end.

(** The number the row holds under [key], as the float the builders
    compute with. *)
Definition row_number (row : Series) (key : string) : result float :=
  let? v := getitem row key in as_float v.

(** The first character of [l] is one of [chars]. *)
Definition head_in (chars : string) (l : list ascii) : bool :=
  match l with
  | [] => false
  | c :: _ => mem_char c chars
  end.

(** Neither end of [s] is a character of [chars]. *)
Definition clean_ends (chars : string) (s : string) : bool :=
  negb (head_in chars (list_ascii_of_string s))
  && negb (head_in chars (rev (list_ascii_of_string s))).

(** The character [c] occurs in [s]. *)
Fixpoint contains (c : ascii) (s : string) : bool :=
  match s with
  | EmptyString => false
  | String c' t => Ascii.eqb c' c || contains c t
  end.

(** What a call may change of the caller's table [elements], whatever
    its outcome: [elements'] has the same rows; it is well formed if
    [elements] was; it holds the same column under every label other than
    the two derived ones; and its labels are those of [elements], in
    their order, followed by new ones. *)
Definition only_derived_changed (elements elements' : DataFrame) : Prop :=
  nrows elements' = nrows elements
  /\ (well_formed elements = true -> well_formed elements' = true)
  /\ (forall key,
        key <> "display_attribute" -> key <> "attribute_color" ->
        lookup (columns elements') key = lookup (columns elements) key)
  /\ exists added,
       map fst (columns elements')
       = (map fst (columns elements) ++ added)%list.

(** The two-element table without its "symbol" column. *)
Definition no_symbol_elements : DataFrame :=
  mkDataFrame 2
    [ ("atomic_number", IntCol [1; 2]%Z);
      ("name", ObjCol [VStr "Hydrogen"; VStr "Helium"]);
      ("atomic_weight", FloatCol [1.008; 4.002602]%float);
      ("x", IntCol [1; 18]%Z);
      ("y", IntCol [1; 1]%Z);
      ("color", ObjCol [VStr "#ff6666"; VStr "#c0ffff"]) ].

(** A table whose attribute misses its second value. *)
Definition nan_weight_elements : DataFrame :=
  mkDataFrame 2
    [ ("atomic_number", IntCol [1; 2]%Z);
      ("symbol", ObjCol [VStr "H"; VStr "He"]);
      ("name", ObjCol [VStr "Hydrogen"; VStr "Helium"]);
      ("atomic_weight", FloatCol [1.008; nan]%float);
      ("x", IntCol [1; 18]%Z);
      ("y", IntCol [1; 1]%Z);
      ("color", ObjCol [VStr "#ff6666"; VStr "#c0ffff"]) ].

(** * Properties *)

(** ** Fallible maps *)

Lemma mapM_Forall2 {A B : Type} (f : A -> result B) (l : list A) (bs : list B) :
  mapM f l = OK bs <-> Forall2 (fun a b => f a = OK b) l bs.
Proof.
  revert bs. induction l as [|a l IH]; intros bs; simpl.
  - split.
    + intros H. injection H as <-. constructor.
    + intros H. inversion H. reflexivity.
  - split.
    + destruct (f a) as [b|e] eqn:Hfa; simpl; [|discriminate].
      destruct (mapM f l) as [bs'|e] eqn:Hl; simpl; [|discriminate].
      intros H. injection H as <-. constructor; [assumption|].
      apply IH. reflexivity.
    + intros H. inversion H as [|a' b l' bs' Hab Hrest]; subst.
      rewrite Hab. simpl.
      apply IH in Hrest. rewrite Hrest. reflexivity.
Qed.

Lemma mapM_length {A B : Type} (f : A -> result B) (l : list A) (bs : list B) :
  mapM f l = OK bs -> List.length bs = List.length l.
Proof.
  intros H. apply mapM_Forall2 in H.
  symmetry. eapply Forall2_length. eassumption.
Qed.

Lemma mapM_total {A B : Type} (f : A -> result B) (l : list A) :
  (forall a, In a l -> exists b, f a = OK b) ->
  exists bs, mapM f l = OK bs.
Proof.
  induction l as [|a l IH]; intros H; simpl.
  - eexists. reflexivity.
  - destruct (H a (or_introl eq_refl)) as [b Hb]. rewrite Hb. simpl.
    destruct IH as [bs Hbs].
    + intros a' Ha'. apply H. right. assumption.
    + rewrite Hbs. simpl. eexists. reflexivity.
Qed.

Lemma mapM_nth_error {A B : Type} (f : A -> result B) (l : list A)
    (bs : list B) (i : nat) (a : A) :
  mapM f l = OK bs -> nth_error l i = Some a ->
  exists b, nth_error bs i = Some b /\ f a = OK b.
Proof.
  intros H. apply mapM_Forall2 in H. revert i.
  induction H as [|a' b l' bs' Hab _ IH]; intros i Hi.
  - destruct i; discriminate.
  - destruct i as [|i]; simpl in *.
    + injection Hi as ->. eauto.
    + apply IH. assumption.
Qed.

(** ** Tables *)

Lemma lookup_assign_eq (cols : list (string * column)) (key : string) (c : column) :
  lookup (assign cols key c) key = Some c.
Proof.
  induction cols as [|[k c'] t IH]; simpl.
  - rewrite String.eqb_refl. reflexivity.
  - destruct (String.eqb k key) eqn:E; simpl; rewrite E; [reflexivity|assumption].
Qed.

Lemma lookup_assign_neq (cols : list (string * column)) (key key' : string)
    (c : column) :
  key' <> key -> lookup (assign cols key c) key' = lookup cols key'.
Proof.
  intros Hne. induction cols as [|[k c'] t IH]; simpl.
  - destruct (String.eqb key key') eqn:E; [|reflexivity].
    apply String.eqb_eq in E. congruence.
  - destruct (String.eqb k key) eqn:E; simpl.
    + apply String.eqb_eq in E. subst k.
      destruct (String.eqb key key') eqn:E'; [|reflexivity].
      apply String.eqb_eq in E'. congruence.
    + rewrite IH. reflexivity.
Qed.

Lemma in_columns_lookup (elements : DataFrame) (key : string) :
  in_columns elements key = true <->
  exists c, lookup (columns elements) key = Some c.
Proof.
  unfold in_columns. induction (columns elements) as [|[k c] t IH]; simpl.
  - split; [discriminate|intros [c H]; discriminate].
  - rewrite (String.eqb_sym key k).
    destruct (String.eqb k key); simpl.
    + split; eauto.
    + assumption.
Qed.

Lemma assign_names (cols : list (string * column)) (key : string) (c : column) :
  map fst (assign cols key c) = names_after (map fst cols) key.
Proof.
  unfold names_after. induction cols as [|[k c'] t IH]; simpl.
  - reflexivity.
  - rewrite (String.eqb_sym key k).
    destruct (String.eqb k key) eqn:E; simpl.
    + reflexivity.
    + rewrite IH. destruct (existsb (String.eqb key) (map fst t)); reflexivity.
Qed.

Lemma existsb_eqb_app (k key : string) (names : list string) :
  existsb (String.eqb k) (names ++ [key])
  = existsb (String.eqb k) names || String.eqb k key.
Proof.
  rewrite existsb_app. simpl. rewrite orb_false_r. reflexivity.
Qed.

Lemma unique_labels_after (names : list string) (key : string) :
  unique_labels names = true -> unique_labels (names_after names key) = true.
Proof.
  unfold names_after. intros Hu.
  destruct (existsb (String.eqb key) names) eqn:Hin; [assumption|].
  induction names as [|k t IH]; simpl in *.
  - reflexivity.
  - apply andb_prop in Hu. destruct Hu as [Hk Ht].
    apply orb_false_elim in Hin. destruct Hin as [Hkey Hin].
    rewrite existsb_eqb_app, (String.eqb_sym k key), Hkey, orb_false_r, Hk.
    simpl. apply IH; assumption.
Qed.

Lemma forallb_assign (P : string * column -> bool)
    (cols : list (string * column)) (key : string) (c : column) :
  (forall k k' c', P (k, c') = P (k', c')) ->
  forallb P cols = true -> P (key, c) = true ->
  forallb P (assign cols key c) = true.
Proof.
  intros Hlabel Hall Hc. induction cols as [|[k c'] t IH]; simpl in *.
  - rewrite Hc. reflexivity.
  - apply andb_prop in Hall. destruct Hall as [Hk Ht].
    destruct (String.eqb k key); simpl.
    + rewrite (Hlabel k key c), Hc, Ht. reflexivity.
    + rewrite Hk, (IH Ht). reflexivity.
Qed.

(** Assigning a column of the right length keeps a table well formed. *)
Lemma well_formed_setitem (elements : DataFrame) (key : string) (c : column) :
  well_formed elements = true -> col_length c = nrows elements ->
  well_formed (df_setitem elements key c) = true.
Proof.
  unfold well_formed, df_setitem. simpl. intros Hwf Hlen.
  apply andb_prop in Hwf. destruct Hwf as [Hu Hall].
  apply andb_true_intro. split.
  - rewrite assign_names. apply unique_labels_after. assumption.
  - apply forallb_assign.
    + reflexivity.
    + assumption.
    + simpl. apply Nat.eqb_eq. assumption.
Qed.

Lemma well_formed_lookup (elements : DataFrame) (key : string) (c : column) :
  well_formed elements = true -> lookup (columns elements) key = Some c ->
  col_length c = nrows elements.
Proof.
  unfold well_formed. intros Hwf.
  apply andb_prop in Hwf. destruct Hwf as [_ Hall].
  induction (columns elements) as [|[k c'] t IH]; simpl in *.
  - discriminate.
  - apply andb_prop in Hall. destruct Hall as [Hk Ht].
    destruct (String.eqb k key).
    + intros H. injection H as <-. apply Nat.eqb_eq. assumption.
    + apply IH. assumption.
Qed.

Lemma display_column_length (col : column) (decimals : Z) :
  col_length (display_column col decimals) = col_length col.
Proof.
  unfold display_column.
  destruct col as [l|l|l]; simpl; [apply length_map|reflexivity|reflexivity].
Qed.

(** Reading a label in a row reads the cell of the column of that label. *)
Lemma getitem_row_at (elements : DataFrame) (i : nat) (key : string) :
  getitem (row_at elements i) key =
  match lookup (columns elements) key with
  | Some c => OK (cell (common_dtype (columns elements)) c i)
  | None => Raise (KeyError key)
  end.
Proof.
  unfold row_at. generalize (common_dtype (columns elements)) as d. intros d.
  induction (columns elements) as [|[k c] t IH]; simpl.
  - reflexivity.
  - destruct (String.eqb k key); [reflexivity|assumption].
Qed.

Lemma iterrows_length (elements : DataFrame) :
  List.length (iterrows elements) = nrows elements.
Proof. unfold iterrows. rewrite length_map, length_seq. reflexivity. Qed.

Lemma iterrows_nth_error (elements : DataFrame) (i : nat) :
  (i < nrows elements)%nat ->
  nth_error (iterrows elements) i = Some (row_at elements i).
Proof.
  intros Hi. unfold iterrows.
  rewrite nth_error_map, nth_error_seq.
  apply Nat.ltb_lt in Hi. rewrite Hi. reflexivity.
Qed.

Lemma In_iterrows (elements : DataFrame) (row : Series) :
  In row (iterrows elements) ->
  exists i, (i < nrows elements)%nat /\ row = row_at elements i.
Proof.
  unfold iterrows. intros H. apply in_map_iff in H.
  destruct H as [i [<- Hi]]. apply in_seq in Hi.
  exists i. split; [lia|reflexivity].
Qed.

Lemma numeric_cell (n : nat) (c : column) (d : dtype) (i : nat) :
  numeric_column n c = true -> (i < n)%nat ->
  exists f, as_float (cell d c i) = OK f.
Proof.
  intros Hc Hi. destruct c as [l|l|l]; simpl in *.
  - eexists. reflexivity.
  - assert (Hint : exists f, as_float (VInt (nth i l 0%Z)) = OK f).
    { destruct (nth_in_or_default i l 0%Z) as [Hin| ->].
      - rewrite forallb_forall in Hc. specialize (Hc _ Hin).
        unfold numeric in Hc.
        destruct (as_float (VInt (nth i l 0%Z))) as [f|e]; [eauto|discriminate].
      - eexists. reflexivity. }
    destruct d; [eexists; reflexivity|assumption|assumption].
  - apply andb_prop in Hc. destruct Hc as [Hlen Hall].
    apply Nat.leb_le in Hlen.
    rewrite forallb_forall in Hall.
    assert (Hin : In (nth i l VNone) l) by (apply nth_In; lia).
    specialize (Hall _ Hin). unfold numeric in Hall.
    destruct (as_float (nth i l VNone)) as [f|e]; [eauto|discriminate].
Qed.

(** ** Descriptor builders *)

Lemma create_tile_eq (element : Series) (color : string)
    (x_offset y_offset : option float) (vx vy c : value) (x y : float) :
  getitem element "x" = OK vx -> as_float vx = OK x ->
  getitem element "y" = OK vy -> as_float vy = OK y ->
  getitem element color = OK c ->
  create_tile element color x_offset y_offset =
  OK (Shape.mk "rect"
        (x - dflt 0.45 x_offset)%float (y - dflt 0.45 y_offset)%float
        (x + dflt 0.45 x_offset)%float (y + dflt 0.45 y_offset)%float
        c c 0.8%float).
Proof.
  intros Hx Hfx Hy Hfy Hc. unfold create_tile, py_sub, py_add.
  rewrite Hx, Hy, Hc; simpl. rewrite Hfx, Hfy; simpl. reflexivity.
Qed.

Lemma create_annotation_eq (row : Series) (attr : string) (size : option Z)
    (x_offset y_offset : option float) (vx vy v : value) (x y : float) :
  getitem row "x" = OK vx -> as_float vx = OK x ->
  getitem row "y" = OK vy -> as_float vy = OK y ->
  getitem row attr = OK v ->
  create_annotation row attr size x_offset y_offset =
  OK (Annotation.mk
        (x + dflt 0.0 x_offset)%float (y + dflt 0.0 y_offset)%float
        "x" "y" v false (Font.mk "Roboto" (dflt 10%Z size) "#333333")
        "center" 0.9%float).
Proof.
  intros Hx Hfx Hy Hfy Hv. unfold create_annotation, py_add.
  rewrite Hx, Hy, Hv; simpl. rewrite Hfx, Hfy; simpl. reflexivity.
Qed.

Lemma has_numeric_setitem (elements : DataFrame) (key key' : string)
    (c : column) :
  key' <> key ->
  has_numeric (df_setitem elements key c) key' = has_numeric elements key'.
Proof.
  intros Hne. unfold has_numeric, df_setitem. simpl.
  rewrite lookup_assign_neq by assumption. reflexivity.
Qed.

Lemma in_columns_setitem (elements : DataFrame) (key key' : string)
    (c : column) :
  in_columns elements key' = true ->
  in_columns (df_setitem elements key c) key' = true.
Proof.
  intros H. apply in_columns_lookup. apply in_columns_lookup in H.
  unfold df_setitem. simpl.
  destruct (String.eqb key' key) eqn:E.
  - apply String.eqb_eq in E. subst key'. rewrite lookup_assign_eq. eauto.
  - apply String.eqb_neq in E. rewrite lookup_assign_neq; assumption.
Qed.

Lemma in_columns_setitem_eq (elements : DataFrame) (key : string) (c : column) :
  in_columns (df_setitem elements key c) key = true.
Proof.
  apply in_columns_lookup. unfold df_setitem. simpl.
  rewrite lookup_assign_eq. eauto.
Qed.

(** In a table with numeric coordinates, every row has a float [x] and a
    float [y]. *)
Lemma row_coordinate (elements : DataFrame) (key : string) (i : nat) :
  has_numeric elements key = true -> (i < nrows elements)%nat ->
  exists v f, getitem (row_at elements i) key = OK v /\ as_float v = OK f.
Proof.
  unfold has_numeric. intros H Hi. rewrite getitem_row_at.
  destruct (lookup (columns elements) key) as [c|]; [|discriminate].
  destruct (numeric_cell _ c (common_dtype (columns elements)) i H Hi)
    as [f Hf].
  eauto.
Qed.

Lemma row_field (elements : DataFrame) (key : string) (i : nat) :
  in_columns elements key = true ->
  exists v, getitem (row_at elements i) key = OK v.
Proof.
  intros H. apply in_columns_lookup in H. destruct H as [c Hc].
  rewrite getitem_row_at, Hc. eauto.
Qed.

Lemma tiles_total (elements : DataFrame) (color : string) :
  has_numeric elements "x" = true -> has_numeric elements "y" = true ->
  in_columns elements color = true ->
  exists tiles,
    mapM (fun row => create_tile row color None None) (iterrows elements)
    = OK tiles.
Proof.
  intros Hx Hy Hc. apply mapM_total. intros row Hrow.
  apply In_iterrows in Hrow. destruct Hrow as (i & Hi & ->).
  destruct (row_coordinate elements "x" i Hx Hi) as (vx & x & Hvx & Hfx).
  destruct (row_coordinate elements "y" i Hy Hi) as (vy & y & Hvy & Hfy).
  destruct (row_field elements color i Hc) as (c & Hvc).
  eexists. eapply create_tile_eq; eassumption.
Qed.

Lemma annotations_total (elements : DataFrame) (attr : string)
    (size : option Z) (x_offset y_offset : option float) :
  has_numeric elements "x" = true -> has_numeric elements "y" = true ->
  in_columns elements attr = true ->
  exists anns,
    mapM (fun row => create_annotation row attr size x_offset y_offset)
         (iterrows elements)
    = OK anns.
Proof.
  intros Hx Hy Hc. apply mapM_total. intros row Hrow.
  apply In_iterrows in Hrow. destruct Hrow as (i & Hi & ->).
  destruct (row_coordinate elements "x" i Hx Hi) as (vx & x & Hvx & Hfx).
  destruct (row_coordinate elements "y" i Hy Hi) as (vy & y & Hvy & Hfy).
  destruct (row_field elements attr i Hc) as (c & Hvc).
  eexists. eapply create_annotation_eq; eassumption.
Qed.

Lemma nth_error_app_offset {A : Type} (l1 l2 : list A) (n i : nat) :
  List.length l1 = n -> nth_error (l1 ++ l2) (n + i) = nth_error l2 i.
Proof.
  intros <-. rewrite nth_error_app2 by lia.
  f_equal. lia.
Qed.

(** ** Computations on the table *)

Lemma bind_inv {A B : Type} (m : M A) (k : A -> M B) (df df2 : DataFrame)
    (b : B) :
  bind m k df = (OK b, df2) ->
  exists a df1, m df = (OK a, df1) /\ k a df1 = (OK b, df2).
Proof.
  unfold bind. destruct (m df) as [[a|e] df1]; [eauto|discriminate].
Qed.

Lemma bind_OK {A B : Type} (m : M A) (k : A -> M B) (df df1 : DataFrame)
    (a : A) :
  m df = (OK a, df1) -> bind m k df = k a df1.
Proof. unfold bind. intros ->. reflexivity. Qed.

Lemma lift_inv {A : Type} (r : result A) (df df1 : DataFrame) (a : A) :
  lift r df = (OK a, df1) -> r = OK a /\ df1 = df.
Proof. unfold lift. intros H. injection H as -> <-. split; reflexivity. Qed.

Ltac invert_bind H x df Hx :=
  apply bind_inv in H; destruct H as (x & df & Hx & H); cbv beta zeta in H.

Ltac invert_lift H :=
  apply lift_inv in H; destruct H as [H ?]; subst.

(** ** The table assembler *)

Section Assembler.

Variable colormap_column :
  DataFrame -> string -> string -> string -> result (list string).

Local Abbreviation periodic_table_plotly :=
  (periodic_table_plotly colormap_column).
Local Abbreviation assembled := (assembled colormap_column).
Local Abbreviation valid_input := (valid_input colormap_column).
Local Abbreviation colored_by := (colored_by colormap_column).

Lemma periodic_table_plotly_assembled (p : params) (elements : DataFrame)
    (fig : Figure.t) (elements2 : DataFrame) :
  periodic_table_plotly p elements = (OK fig, elements2) ->
  assembled elements p fig elements2.
Proof.
  intros H. unfold periodic_table_plotly in H.
  invert_bind H elements0 df0 Ht.
  unfold table in Ht. injection Ht as <- <-.
  cbn [existsb] in H.
  destruct (in_columns elements "x") eqn:Hx; [|discriminate].
  destruct (in_columns elements "y") eqn:Hy; [|discriminate].
  cbn [negb orb] in H.
  invert_bind H color elements1 Hcolor.
  assert (Hby : colored_by elements p color elements1).
  { unfold colored_by.
    destruct (String.eqb (colorby p) "attribute").
    - invert_bind Hcolor colored df1 Hcm. invert_lift Hcm.
      invert_bind Hcolor u df2 Hset.
      unfold loc_setitem in Hset. rewrite length_map in Hset.
      destruct (Nat.eqb (List.length colored) (nrows elements)) eqn:Hlen;
        [|discriminate].
      apply Nat.eqb_eq in Hlen.
      injection Hset as _ <-. unfold ret in Hcolor.
      injection Hcolor as <- <-. eauto.
    - unfold ret in Hcolor. injection Hcolor as <- <-. auto. }
  clear Hcolor.
  invert_bind H elements1' df1 Ht.
  unfold table in Ht. injection Ht as <- <-.
  invert_bind H tiles df1 Htiles. invert_lift Htiles.
  invert_bind H a_sym df1 Hsym. invert_lift Hsym.
  invert_bind H a_num df1 Hnum. invert_lift Hnum.
  invert_bind H a_nam df1 Hnam. invert_lift Hnam.
  invert_bind H col df1 Hcol. invert_lift Hcol.
  unfold df_getitem in Hcol.
  destruct (lookup (columns elements1) (attribute p)) as [col'|] eqn:Hlk;
    [|discriminate].
  injection Hcol as ->.
  invert_bind H u df1 Hset.
  assert (Hdf1 : df1 = df_setitem elements1 "display_attribute"
                   (display_column col (decimals p))).
  { unfold display_column.
    destruct (is_float_dtype col); unfold setitem in Hset;
      injection Hset as _ <-; reflexivity. }
  clear Hset. subst df1.
  invert_bind H elements2' df1 Ht.
  unfold table in Ht. injection Ht as <- <-.
  invert_bind H a_att df1 Hatt. invert_lift Hatt.
  unfold apply_rows in *.
  pose proof (Assembled colormap_column elements p color elements1 col
                tiles a_sym a_num a_nam a_att
                Hx Hy Hby Hlk Htiles Hsym Hnum Hnam Hatt) as HA.
  destruct (wide_layout p) eqn:Hwide; unfold ret in H;
    injection H as <- <-;
    unfold Figure.update_layout, Figure.add_annotations,
      Figure.add_shapes, Figure.empty;
    cbn [Figure.shapes Figure.annotations Figure.xaxis Figure.yaxis
         Axis.title Axis.side Axis.empty app];
    rewrite <- !app_assoc; exact HA.
Qed.

Lemma assembled_periodic_table_plotly (p : params) (elements : DataFrame)
    (fig : Figure.t) (elements2 : DataFrame) :
  assembled elements p fig elements2 ->
  periodic_table_plotly p elements = (OK fig, elements2).
Proof.
  intros H.
  destruct H as [color elements1 col tiles a_sym a_num a_nam a_att
                 Hx Hy Hby Hlk Htiles Hsym Hnum Hnam Hatt].
  unfold periodic_table_plotly.
  rewrite (bind_OK _ _ elements elements elements) by reflexivity.
  cbv beta. cbn [existsb]. rewrite Hx, Hy. cbn [negb orb].
  rewrite (bind_OK _ _ elements elements1 color).
  2:{ unfold colored_by in Hby.
      destruct (String.eqb (colorby p) "attribute").
      - destruct Hby as (colored & Hcm & Hlen & -> & ->).
        unfold bind, lift, loc_setitem, ret. rewrite Hcm.
        rewrite length_map, Hlen, Nat.eqb_refl. reflexivity.
      - destruct Hby as [-> ->]. reflexivity. }
  cbv beta zeta.
  rewrite (bind_OK _ _ elements1 elements1 elements1) by reflexivity.
  cbv beta zeta. unfold apply_rows.
  rewrite (bind_OK _ _ elements1 elements1 tiles)
    by (unfold lift; rewrite Htiles; reflexivity).
  cbv beta zeta.
  rewrite (bind_OK _ _ elements1 elements1 a_sym)
    by (unfold lift; rewrite Hsym; reflexivity).
  cbv beta zeta.
  rewrite (bind_OK _ _ elements1 elements1 a_num)
    by (unfold lift; rewrite Hnum; reflexivity).
  cbv beta zeta.
  rewrite (bind_OK _ _ elements1 elements1 a_nam)
    by (unfold lift; rewrite Hnam; reflexivity).
  cbv beta zeta.
  rewrite (bind_OK _ _ elements1 elements1 col)
    by (unfold lift, df_getitem; rewrite Hlk; reflexivity).
  cbv beta zeta.
  rewrite (bind_OK _ _ elements1
             (df_setitem elements1 "display_attribute"
                (display_column col (decimals p))) tt)
    by (unfold display_column; destruct (is_float_dtype col); reflexivity).
  cbv beta zeta.
  rewrite (bind_OK _ _ _ _ _ eq_refl : bind table _ _ = _).
  cbv beta zeta.
  rewrite (bind_OK _ _ _ _ a_att)
    by (unfold lift; rewrite Hatt; reflexivity).
  cbv beta zeta.
  destruct (wide_layout p); unfold ret;
    unfold Figure.update_layout, Figure.add_annotations,
      Figure.add_shapes, Figure.empty;
    cbn [Figure.shapes Figure.annotations Figure.xaxis Figure.yaxis
         Axis.title Axis.side Axis.empty app];
    rewrite <- !app_assoc; reflexivity.
Qed.

Lemma valid_input_parts (p : params) (elements : DataFrame) :
  valid_input elements p = true ->
  well_formed elements = true
  /\ has_numeric elements "x" = true
  /\ has_numeric elements "y" = true
  /\ in_columns elements "symbol" = true
  /\ in_columns elements "atomic_number" = true
  /\ in_columns elements "name" = true
  /\ in_columns elements (attribute p) = true
  /\ (if String.eqb (colorby p) "attribute"
      then
        match colormap_column elements (attribute p) (cmap p) (missing p) with
        | OK colored => Nat.eqb (List.length colored) (nrows elements)
        | Raise _ => false
        end
      else in_columns elements (colorby p)) = true.
Proof.
  unfold valid_input. intros H.
  do 7 (apply andb_prop in H; destruct H as [H ?]).
  repeat split; assumption.
Qed.

(** The colouring step of a valid input keeps what the later steps
    need. *)
Lemma valid_input_colored (p : params) (elements : DataFrame) :
  valid_input elements p = true ->
  exists color elements1,
    colored_by elements p color elements1
    /\ well_formed elements1 = true
    /\ nrows elements1 = nrows elements
    /\ has_numeric elements1 "x" = true
    /\ has_numeric elements1 "y" = true
    /\ in_columns elements1 "symbol" = true
    /\ in_columns elements1 "atomic_number" = true
    /\ in_columns elements1 "name" = true
    /\ in_columns elements1 (attribute p) = true
    /\ in_columns elements1 color = true.
Proof.
  intros H. apply valid_input_parts in H.
  destruct H as (Hwf & Hx & Hy & Hs & Ha & Hm & Hat & Hc).
  unfold colored_by.
  destruct (String.eqb (colorby p) "attribute").
  - destruct (colormap_column elements (attribute p) (cmap p) (missing p))
      as [colored|] eqn:Hcm; [|discriminate].
    exists "attribute_color",
      (df_setitem elements "attribute_color" (ObjCol (map VStr colored))).
    assert (Hlen : List.length colored = nrows elements)
      by (apply Nat.eqb_eq; assumption).
    split.
    { exists colored. repeat split. assumption. }
    split.
    { apply well_formed_setitem; [assumption|].
      simpl. rewrite length_map. assumption. }
    split; [reflexivity|].
    rewrite !has_numeric_setitem by discriminate.
    repeat split;
      auto using in_columns_setitem, in_columns_setitem_eq.
  - exists (colorby p), elements. repeat split; assumption.
Qed.

Lemma valid_input_assembled (p : params) (elements : DataFrame) :
  valid_input elements p = true ->
  exists fig elements2, assembled elements p fig elements2.
Proof.
  intros Hv.
  assert (Hxy : in_columns elements "x" = true
                /\ in_columns elements "y" = true).
  { destruct (valid_input_parts p elements Hv) as (_ & Hnx & Hny & _).
    unfold has_numeric in *. split; apply in_columns_lookup.
    - destruct (lookup (columns elements) "x"); [eauto|discriminate].
    - destruct (lookup (columns elements) "y"); [eauto|discriminate]. }
  destruct Hxy as [Hx Hy].
  destruct (valid_input_colored p elements Hv)
    as (color & elements1 & Hby & Hwf & Hn & Hx1 & Hy1 & Hs & Ha & Hm & Hat
        & Hc).
  apply in_columns_lookup in Hat. destruct Hat as [col Hcol].
  destruct (tiles_total elements1 color Hx1 Hy1 Hc) as [tiles Htiles].
  destruct (annotations_total elements1 "symbol" (Some 16%Z) None None
              Hx1 Hy1 Hs) as [a_sym Hsym].
  destruct (annotations_total elements1 "atomic_number" None None
              (Some (-0.3)%float) Hx1 Hy1 Ha) as [a_num Hnum].
  destruct (annotations_total elements1 "name" (Some 7%Z) None
              (Some 0.2%float) Hx1 Hy1 Hm) as [a_nam Hnam].
  destruct (annotations_total
              (df_setitem elements1 "display_attribute"
                 (display_column col (decimals p)))
              "display_attribute" (Some 7%Z) None (Some 0.35%float))
    as [a_att Hatt].
  { rewrite has_numeric_setitem by discriminate. assumption. }
  { rewrite has_numeric_setitem by discriminate. assumption. }
  { apply in_columns_setitem_eq. }
  eexists. eexists.
  exact (Assembled colormap_column elements p color elements1 col
           tiles a_sym a_num a_nam a_att
           Hx Hy Hby Hcol Htiles Hsym Hnum Hnam Hatt).
Qed.

(** A valid input is drawn: the call returns a chart. *)
Lemma valid_input_returns (p : params) (elements : DataFrame) :
  valid_input elements p = true ->
  exists fig elements2,
    periodic_table_plotly p elements = (OK fig, elements2)
    /\ assembled elements p fig elements2.
Proof.
  intros Hv. destruct (valid_input_assembled p elements Hv) as (fig & e2 & H).
  exists fig, e2. split; [|assumption].
  apply assembled_periodic_table_plotly. assumption.
Qed.

Lemma colored_by_table (p : params) (elements elements1 : DataFrame)
    (color : string) :
  colored_by elements p color elements1 ->
  nrows elements1 = nrows elements
  /\ (forall key, key <> "attribute_color" ->
        lookup (columns elements1) key = lookup (columns elements) key)
  /\ (colorby p <> "attribute" -> elements1 = elements)
  /\ map fst (columns elements1) =
       (if String.eqb (colorby p) "attribute"
        then names_after (map fst (columns elements)) "attribute_color"
        else map fst (columns elements)).
Proof.
  unfold colored_by. intros H.
  destruct (String.eqb (colorby p) "attribute") eqn:E.
  - destruct H as (colored & _ & _ & _ & ->).
    apply String.eqb_eq in E.
    repeat split.
    + intros key Hkey. simpl. apply lookup_assign_neq. assumption.
    + intros Hne. contradiction.
    + simpl. apply assign_names.
  - destruct H as [_ ->]. repeat split.
Qed.

Lemma colored_by_numeric (p : params) (elements elements1 : DataFrame)
    (color key : string) :
  colored_by elements p color elements1 ->
  key <> "attribute_color" ->
  has_numeric elements1 key = has_numeric elements key.
Proof.
  intros H Hkey.
  destruct (colored_by_table p elements elements1 color H)
    as (Hn & Hlk & _).
  unfold has_numeric. rewrite Hn, Hlk by assumption. reflexivity.
Qed.

Lemma colored_by_well_formed (p : params) (elements elements1 : DataFrame)
    (color : string) :
  colored_by elements p color elements1 ->
  well_formed elements = true -> well_formed elements1 = true.
Proof.
  unfold colored_by. intros H Hwf.
  destruct (String.eqb (colorby p) "attribute").
  - destruct H as (colored & _ & Hlen & _ & ->).
    apply well_formed_setitem; [assumption|].
    simpl. rewrite length_map. assumption.
  - destruct H as [_ ->]. assumption.
Qed.

(** C1: when column "x" or column "y" is absent, the call raises the
    configuration error ([ValueError]), so no chart is returned, and the
    table is left as it was: no derived column has been added. *)
Theorem missing_coordinates_raise (p : params) (elements : DataFrame) :
  in_columns elements "x" = false \/ in_columns elements "y" = false ->
  periodic_table_plotly p elements
  = (Raise (ValueError coordinates_required), elements).
Proof.
  intros H. unfold periodic_table_plotly, bind, table, raise.
  cbn [existsb].
  destruct H as [H|H]; rewrite H; cbn [negb orb].
  - reflexivity.
  - rewrite orb_true_r. reflexivity.
Qed.


End Assembler.

(** ** The scale plotter *)

Lemma plot_scale_title (data : DataFrame) (scale : string) (fig : Scatter.t) :
  plot_scale data scale = OK fig ->
  Scatter.title fig = scale_name scale ++ "'s Electronegativity"
  /\ Scatter.yaxis_title fig = Some (scale_name scale).
Proof.
  unfold plot_scale, px_scatter. intros H.
  destruct (lookup (columns data) scale); [|discriminate].
  destruct (lookup (columns data) "symbol"); [|discriminate].
  simpl in H. injection H as <-. split; reflexivity.
Qed.

Lemma plot_scale_returns (data : DataFrame) (scale : string) (ycol tcol : column) :
  lookup (columns data) scale = Some ycol ->
  lookup (columns data) "symbol" = Some tcol ->
  exists fig, plot_scale data scale = OK fig.
Proof.
  intros Hy Ht. unfold plot_scale, px_scatter. rewrite Hy, Ht.
  simpl. eexists. reflexivity.
Qed.

(** For the identifier "en_pauling" the title is the expected one. *)
Lemma plot_scale_en_pauling (data : DataFrame) (ycol tcol : column) :
  lookup (columns data) "en_pauling" = Some ycol ->
  lookup (columns data) "symbol" = Some tcol ->
  exists fig,
    plot_scale data "en_pauling" = OK fig
    /\ Scatter.title fig = "Pauling's Electronegativity".
Proof.
  intros Hy Ht.
  destruct (plot_scale_returns data "en_pauling" ycol tcol Hy Ht) as [fig Hfig].
  exists fig. split; [assumption|].
  apply plot_scale_title in Hfig. destruct Hfig as [-> _]. reflexivity.
Qed.

(** C4: [plot_scale] titles the chart of the scale "en_allen" with
    "All's Electronegativity": [strip("en_")] removes the characters e, n
    and _ from both ends of the identifier, so the end of "allen" goes
    with the prefix. *)
Theorem plot_scale_en_allen (data : DataFrame) (ycol tcol : column) :
  lookup (columns data) "en_allen" = Some ycol ->
  lookup (columns data) "symbol" = Some tcol ->
  exists fig,
    plot_scale data "en_allen" = OK fig
    /\ Scatter.title fig = "All's Electronegativity"
    /\ Scatter.yaxis_title fig = Some "All"
    /\ Scatter.title fig <> "Allen's Electronegativity".
Proof.
  intros Hy Ht.
  destruct (plot_scale_returns data "en_allen" ycol tcol Hy Ht) as [fig Hfig].
  exists fig. split; [assumption|].
  apply plot_scale_title in Hfig. destruct Hfig as [-> ->].
  repeat split. discriminate.
Qed.

(** ** The properties on the example tables *)

Lemma plot_scale_en_allen_example :
  exists fig,
    plot_scale scales_data "en_allen" = OK fig
    /\ Scatter.title fig = "All's Electronegativity".
Proof.
  destruct (plot_scale_en_allen scales_data
              (FloatCol [13.61; 24.59]%float)
              (ObjCol [VStr "H"; VStr "He"]) eq_refl eq_refl)
    as (fig & Hfig & Htitle & _).
  exists fig. split; assumption.
Defined.

Lemma missing_coordinates_raise_example :
  in_columns no_y_elements "y" = false
  /\ periodic_table_plotly plain_colormap default_params no_y_elements
     = (Raise (ValueError coordinates_required), no_y_elements).
Proof.
  split; [reflexivity|].
  apply (missing_coordinates_raise plain_colormap default_params
           no_y_elements).
  right. reflexivity.
Defined.

(** With the wide layout the y ticks are set, where the specification has
    the tick values unset. *)
Lemma axes_not_as_specified :
  exists fig elements2,
    periodic_table_plotly plain_colormap wide_params two_elements
    = (OK fig, elements2)
    /\ ~ axes_as_specified (wide_layout wide_params) fig.
Proof.
  eexists. eexists. split; [lazy; reflexivity|].
  simpl. intros (_ & Hy & _). discriminate Hy.
Qed.

(** In an [object] column the number 7.1234 is displayed as it is, where
    the specification has it rounded to 7.12. *)
Lemma display_not_as_specified :
  exists fig elements2 display,
    periodic_table_plotly plain_colormap value_params mixed_elements
    = (OK fig, elements2)
    /\ lookup (columns mixed_elements) (attribute value_params)
       = Some (ObjCol [VFloat 7.1234; VStr "s-block"])
    /\ lookup (columns elements2) "display_attribute" = Some display
    /\ ~ display_as_specified (decimals value_params)
           (ObjCol [VFloat 7.1234; VStr "s-block"]) display.
Proof.
  eexists. eexists. eexists.
  split; [lazy; reflexivity|].
  split; [reflexivity|].
  split; [reflexivity|].
  unfold display_as_specified. intros H.
  apply (f_equal (fun l => match l with
                           | VFloat f :: _ => PrimFloat.eqb f 7.1234%float
                           | _ => false
                           end)) in H.
  vm_compute in H. discriminate H.
Qed.

(** * Further properties *)

(** ** The descriptor builders: when they succeed and how they fail *)

Lemma getitem_raise (row : Series) (key : string) (e : exn) :
  getitem row key = Raise e -> e = KeyError key.
Proof.
  induction row as [|[k v] t IH]; simpl.
  - intros H. injection H as <-. reflexivity.
  - destruct (String.eqb k key); [discriminate|assumption].
Qed.

Lemma as_float_raise (v : value) (e : exn) :
  as_float v = Raise e -> e = TypeError \/ e = OverflowError.
Proof.
  destruct v as [f|n|s|]; simpl.
  - discriminate.
  - destruct (is_infinity (Z_to_float n)); [|discriminate].
    intros H. injection H as <-. right. reflexivity.
  - intros H. injection H as <-. left. reflexivity.
  - intros H. injection H as <-. left. reflexivity.
Qed.

Lemma numeric_field_iff (row : Series) (key : string) :
  numeric_field row key = true <->
  exists v f, getitem row key = OK v /\ as_float v = OK f.
Proof.
  unfold numeric_field, numeric. split.
  - destruct (getitem row key) as [v|]; [|discriminate].
    destruct (as_float v) as [f|] eqn:Hf; [|discriminate]. eauto.
  - intros (v & f & -> & ->). reflexivity.
Qed.

Lemma create_tile_raise_kind (element : Series) (color : string)
    (x_offset y_offset : option float) (e : exn) :
  create_tile element color x_offset y_offset = Raise e ->
  is_ValueError e = false.
Proof.
  unfold create_tile, py_sub, py_add.
  destruct (getitem element "x") as [vx|e1] eqn:Hx; simpl.
  2:{ apply getitem_raise in Hx. subst e1.
      intros H. injection H as <-. reflexivity. }
  destruct (as_float vx) as [x|e1] eqn:Hfx; simpl.
  2:{ apply as_float_raise in Hfx.
      intros H. injection H as <-. destruct Hfx; subst; reflexivity. }
  destruct (getitem element "y") as [vy|e1] eqn:Hy; simpl.
  2:{ apply getitem_raise in Hy. subst e1.
      intros H. injection H as <-. reflexivity. }
  destruct (as_float vy) as [y|e1] eqn:Hfy; simpl.
  2:{ apply as_float_raise in Hfy.
      intros H. injection H as <-. destruct Hfy; subst; reflexivity. }
  destruct (getitem element color) as [c|e1] eqn:Hc; simpl.
  2:{ apply getitem_raise in Hc. subst e1.
      intros H. injection H as <-. reflexivity. }
  discriminate.
Qed.

Lemma create_annotation_raise_kind (row : Series) (attr : string)
    (size : option Z) (x_offset y_offset : option float) (e : exn) :
  create_annotation row attr size x_offset y_offset = Raise e ->
  is_ValueError e = false.
Proof.
  unfold create_annotation, py_add.
  destruct (getitem row "x") as [vx|e1] eqn:Hx; simpl.
  2:{ apply getitem_raise in Hx. subst e1.
      intros H. injection H as <-. reflexivity. }
  destruct (as_float vx) as [x|e1] eqn:Hfx; simpl.
  2:{ apply as_float_raise in Hfx.
      intros H. injection H as <-. destruct Hfx; subst; reflexivity. }
  destruct (getitem row "y") as [vy|e1] eqn:Hy; simpl.
  2:{ apply getitem_raise in Hy. subst e1.
      intros H. injection H as <-. reflexivity. }
  destruct (as_float vy) as [y|e1] eqn:Hfy; simpl.
  2:{ apply as_float_raise in Hfy.
      intros H. injection H as <-. destruct Hfy; subst; reflexivity. }
  destruct (getitem row attr) as [c|e1] eqn:Hc; simpl.
  2:{ apply getitem_raise in Hc. subst e1.
      intros H. injection H as <-. reflexivity. }
  discriminate.
Qed.

(** The annotation of a row that lacks the displayed field. *)
Lemma create_annotation_missing_field (row : Series) (attr : string)
    (size : option Z) (x_offset y_offset : option float) :
  numeric_field row "x" = true -> numeric_field row "y" = true ->
  has_field row attr = false ->
  create_annotation row attr size x_offset y_offset = Raise (KeyError attr).
Proof.
  unfold create_annotation, py_add, has_field, numeric_field, numeric.
  destruct (getitem row "x") as [vx|]; [|discriminate].
  simpl. destruct (as_float vx) as [x|]; [|discriminate].
  simpl. intros _.
  destruct (getitem row "y") as [vy|]; [|discriminate].
  simpl. destruct (as_float vy) as [y|]; [|discriminate].
  simpl. intros _.
  destruct (getitem row attr) as [c|e] eqn:Hc; [discriminate|].
  apply getitem_raise in Hc. subst e. reflexivity.
Qed.

(** ** The table assembler: every way a call ends *)

Lemma bind_raise_inv {A B : Type} (m : M A) (k : A -> M B)
    (df df2 : DataFrame) (e : exn) :
  bind m k df = (Raise e, df2) ->
  m df = (Raise e, df2)
  \/ exists a df1, m df = (OK a, df1) /\ k a df1 = (Raise e, df2).
Proof.
  unfold bind. destruct (m df) as [[a|e'] df1]; [eauto|].
  intros H. injection H as -> ->. left. reflexivity.
Qed.

Lemma lift_raise_inv {A : Type} (r : result A) (df df1 : DataFrame) (e : exn) :
  lift r df = (Raise e, df1) -> r = Raise e /\ df1 = df.
Proof. unfold lift. intros H. injection H as -> <-. split; reflexivity. Qed.

Lemma mapM_raise_inv {A B : Type} (f : A -> result B) (l : list A) (e : exn) :
  mapM f l = Raise e -> exists a, In a l /\ f a = Raise e.
Proof.
  induction l as [|a l IH]; simpl.
  - discriminate.
  - destruct (f a) as [b|e'] eqn:Hfa; simpl.
    + destruct (mapM f l) as [bs|e'] eqn:Hl; simpl; [discriminate|].
      intros H. injection H as ->.
      destruct (IH eq_refl) as (a' & Hin & Ha'). eauto.
    + intros H. injection H as ->. eauto.
Qed.

Lemma mapM_OK_inv_nth {A B : Type} (f : A -> result B) (l : list A)
    (bs : list B) (i : nat) (b : B) :
  mapM f l = OK bs -> nth_error bs i = Some b ->
  exists a, nth_error l i = Some a /\ f a = OK b.
Proof.
  intros H. apply mapM_Forall2 in H. revert i.
  induction H as [|a' b' l' bs' Hab _ IH]; intros i Hi.
  - destruct i; discriminate.
  - destruct i as [|i]; simpl in *.
    + injection Hi as ->. eauto.
    + apply IH. assumption.
Qed.

Ltac step_bind H a df Ha :=
  apply bind_raise_inv in H;
  destruct H as [Ha | (a & df & Ha & H)];
  [ | cbv beta zeta in H ].

Section Outcomes.

Variable colormap_column :
  DataFrame -> string -> string -> string -> result (list string).

Local Abbreviation periodic_table_plotly :=
  (periodic_table_plotly colormap_column).
Local Abbreviation assembled := (assembled colormap_column).
Local Abbreviation valid_input := (valid_input colormap_column).
Local Abbreviation colored_by := (colored_by colormap_column).

(** The colouring step, run on its own. *)
Lemma color_step_OK (p : params) (elements : DataFrame) (color : string)
    (elements1 : DataFrame) :
  (if String.eqb (colorby p) "attribute" then
     colored <- lift (colormap_column elements (attribute p) (cmap p)
                                      (missing p)) ;;
     _ <- loc_setitem "attribute_color" (map VStr colored) ;;
     ret "attribute_color"
   else ret (colorby p)) elements = (OK color, elements1) <->
  colored_by elements p color elements1.
Proof.
  unfold colored_by.
  destruct (String.eqb (colorby p) "attribute").
  - unfold bind, lift, loc_setitem, ret.
    destruct (colormap_column elements (attribute p) (cmap p) (missing p))
      as [colored|e].
    + rewrite length_map.
      destruct (Nat.eqb (List.length colored) (nrows elements)) eqn:Hlen.
      * apply Nat.eqb_eq in Hlen. split.
        -- intros H. injection H as <- <-. eauto.
        -- intros (colored' & Hc & _ & -> & ->).
           injection Hc as <-. reflexivity.
      * apply Nat.eqb_neq in Hlen. split; [discriminate|].
        intros (colored' & Hc & Hlen' & _).
        injection Hc as <-. contradiction.
    + split; [discriminate|].
      intros (colored' & Hc & _). discriminate.
  - unfold ret. split.
    + intros H. injection H as <- <-. auto.
    + intros [-> ->]. reflexivity.
Qed.

(** A failure of the colouring step: the colour mapper raised, or gave a
    list that does not have one colour per row. *)
Lemma color_step_raise (p : params) (elements : DataFrame) (e : exn)
    (df : DataFrame) :
  (if String.eqb (colorby p) "attribute" then
     colored <- lift (colormap_column elements (attribute p) (cmap p)
                                      (missing p)) ;;
     _ <- loc_setitem "attribute_color" (map VStr colored) ;;
     ret "attribute_color"
   else ret (colorby p)) elements = (Raise e, df) ->
  colorby p = "attribute" /\ df = elements
  /\ (colormap_column elements (attribute p) (cmap p) (missing p) = Raise e
      \/ exists colored,
           colormap_column elements (attribute p) (cmap p) (missing p)
           = OK colored
           /\ List.length colored <> nrows elements
           /\ is_ValueError e = true).
Proof.
  destruct (String.eqb (colorby p) "attribute") eqn:Hc.
  - apply String.eqb_eq in Hc.
    unfold bind, lift, loc_setitem, ret.
    destruct (colormap_column elements (attribute p) (cmap p) (missing p))
      as [colored|e'].
    + rewrite length_map.
      destruct (Nat.eqb (List.length colored) (nrows elements)) eqn:Hlen;
        [discriminate|].
      apply Nat.eqb_neq in Hlen.
      intros H. injection H as <- <-.
      repeat split; [assumption|]. right. exists colored. repeat split.
      assumption.
    + intros H. injection H as <- <-.
      repeat split; [assumption|]. left. reflexivity.
  - unfold ret. discriminate.
Qed.

(** A call that raises ends in one of three ways: at the validation of the
    coordinate columns; in the colouring step; or later, with an error
    that is not a [ValueError], the table being then the coloured table,
    with or without its display column. *)
Lemma failure_cases (p : params) (elements : DataFrame) (e : exn)
    (elements' : DataFrame) :
  periodic_table_plotly p elements = (Raise e, elements') ->
  (e = ValueError coordinates_required /\ elements' = elements
   /\ (in_columns elements "x" = false \/ in_columns elements "y" = false))
  \/ (in_columns elements "x" = true /\ in_columns elements "y" = true
      /\ ((colorby p = "attribute" /\ elements' = elements
           /\ (colormap_column elements (attribute p) (cmap p) (missing p)
                = Raise e
               \/ exists colored,
                    colormap_column elements (attribute p) (cmap p)
                                    (missing p) = OK colored
                    /\ List.length colored <> nrows elements
                    /\ is_ValueError e = true))
          \/ exists color elements1,
               colored_by elements p color elements1
               /\ is_ValueError e = false
               /\ (elements' = elements1
                   \/ exists col,
                        lookup (columns elements1) (attribute p) = Some col
                        /\ elements' =
                           df_setitem elements1 "display_attribute"
                             (display_column col (decimals p))))).
Proof.
  intros H. unfold periodic_table_plotly in H.
  step_bind H elements0 df0 Ht; [discriminate Ht|].
  unfold table in Ht. injection Ht as <- <-.
  cbn [existsb] in H.
  destruct (in_columns elements "x") eqn:Hx.
  2:{ left. unfold raise in H. injection H as <- <-. auto. }
  destruct (in_columns elements "y") eqn:Hy.
  2:{ left. unfold raise in H. injection H as <- <-. auto. }
  cbn [negb orb] in H.
  right. split; [reflexivity|]. split; [reflexivity|].
  step_bind H color elements1 Hcolor.
  { left. apply color_step_raise in Hcolor.
    destruct Hcolor as (Hc & -> & Hcm). auto. }
  apply color_step_OK in Hcolor.
  right. exists color, elements1. split; [assumption|].
  step_bind H elements1' df1 Ht; [discriminate Ht|].
  unfold table in Ht. injection Ht as <- <-.
  step_bind H tiles df1 Htiles.
  { apply lift_raise_inv in Htiles. destruct Htiles as [Htiles ->].
    apply mapM_raise_inv in Htiles. destruct Htiles as (row & _ & Hrow).
    apply create_tile_raise_kind in Hrow. auto. }
  invert_lift Htiles.
  unfold apply_rows in H.
  step_bind H a_sym df1 Hsym.
  { apply lift_raise_inv in Hsym. destruct Hsym as [Hsym ->].
    apply mapM_raise_inv in Hsym. destruct Hsym as (row & _ & Hrow).
    apply create_annotation_raise_kind in Hrow. auto. }
  invert_lift Hsym.
  step_bind H a_num df1 Hnum.
  { apply lift_raise_inv in Hnum. destruct Hnum as [Hnum ->].
    apply mapM_raise_inv in Hnum. destruct Hnum as (row & _ & Hrow).
    apply create_annotation_raise_kind in Hrow. auto. }
  invert_lift Hnum.
  step_bind H a_nam df1 Hnam.
  { apply lift_raise_inv in Hnam. destruct Hnam as [Hnam ->].
    apply mapM_raise_inv in Hnam. destruct Hnam as (row & _ & Hrow).
    apply create_annotation_raise_kind in Hrow. auto. }
  invert_lift Hnam.
  step_bind H col df1 Hcol.
  { apply lift_raise_inv in Hcol. destruct Hcol as [Hcol ->].
    unfold df_getitem in Hcol.
    destruct (lookup (columns elements1) (attribute p)); [discriminate|].
    injection Hcol as <-. auto. }
  invert_lift Hcol.
  unfold df_getitem in Hcol.
  destruct (lookup (columns elements1) (attribute p)) as [col'|] eqn:Hlk;
    [|discriminate].
  injection Hcol as ->.
  step_bind H u df1 Hset.
  { destruct (is_float_dtype col); discriminate Hset. }
  assert (Hdf1 : df1 = df_setitem elements1 "display_attribute"
                   (display_column col (decimals p))).
  { unfold display_column.
    destruct (is_float_dtype col); unfold setitem in Hset;
      injection Hset as _ <-; reflexivity. }
  clear Hset. subst df1.
  step_bind H elements2' df1 Ht; [discriminate Ht|].
  unfold table in Ht. injection Ht as <- <-.
  step_bind H a_att df1 Hatt.
  { apply lift_raise_inv in Hatt. destruct Hatt as [Hatt ->].
    apply mapM_raise_inv in Hatt. destruct Hatt as (row & _ & Hrow).
    apply create_annotation_raise_kind in Hrow.
    split; [assumption|]. right. exists col. auto. }
  destruct (wide_layout p); discriminate H.
Qed.

End Outcomes.

(** ** The table assembler: what the outcomes have in common *)

Lemma names_after_prefix (names : list string) (key : string) :
  exists added, names_after names key = (names ++ added)%list.
Proof.
  unfold names_after. destruct (existsb (String.eqb key) names).
  - exists []. symmetry. apply app_nil_r.
  - exists [key]. reflexivity.
Qed.

Lemma only_derived_changed_refl (elements : DataFrame) :
  only_derived_changed elements elements.
Proof.
  unfold only_derived_changed. repeat split; auto.
  exists []. symmetry. apply app_nil_r.
Qed.

Lemma only_derived_changed_setitem (elements elements1 : DataFrame)
    (key : string) (c : column) :
  only_derived_changed elements elements1 ->
  key = "display_attribute" \/ key = "attribute_color" ->
  (well_formed elements1 = true -> col_length c = nrows elements1) ->
  only_derived_changed elements (df_setitem elements1 key c).
Proof.
  unfold only_derived_changed.
  intros (Hn & Hwf & Hkeep & (added & Hnames)) Hkey Hlen.
  split; [exact Hn|]. split; [|split].
  - intros H. apply well_formed_setitem; auto.
  - intros k Hd Hc. simpl. rewrite lookup_assign_neq.
    + apply Hkeep; assumption.
    + destruct Hkey; subst key; assumption.
  - simpl. rewrite assign_names.
    destruct (names_after_prefix (map fst (columns elements1)) key)
      as (added' & ->).
    rewrite Hnames, <- app_assoc. eauto.
Qed.

Section Frame.

Variable colormap_column :
  DataFrame -> string -> string -> string -> result (list string).

Local Abbreviation periodic_table_plotly :=
  (periodic_table_plotly colormap_column).
Local Abbreviation assembled := (assembled colormap_column).
Local Abbreviation valid_input := (valid_input colormap_column).
Local Abbreviation colored_by := (colored_by colormap_column).

Lemma colored_by_only_derived (p : params) (elements elements1 : DataFrame)
    (color : string) :
  colored_by elements p color elements1 ->
  only_derived_changed elements elements1.
Proof.
  unfold colored_by. intros H.
  destruct (String.eqb (colorby p) "attribute").
  - destruct H as (colored & _ & Hlen & _ & ->).
    apply only_derived_changed_setitem.
    + apply only_derived_changed_refl.
    + right. reflexivity.
    + intros _. simpl. rewrite length_map. assumption.
  - destruct H as [_ ->]. apply only_derived_changed_refl.
Qed.

Lemma display_only_derived (p : params) (elements elements1 : DataFrame)
    (col : column) :
  only_derived_changed elements elements1 ->
  lookup (columns elements1) (attribute p) = Some col ->
  only_derived_changed elements
    (df_setitem elements1 "display_attribute"
       (display_column col (decimals p))).
Proof.
  intros H Hlk. apply only_derived_changed_setitem.
  - assumption.
  - left. reflexivity.
  - intros Hwf. rewrite display_column_length.
    apply (well_formed_lookup elements1 (attribute p)); assumption.
Qed.

(** X6: whatever the outcome of the call, a chart or an exception, the
    caller's table keeps its rows, stays well formed if it was, holds
    the same column under every label other than "display_attribute"
    and "attribute_color", and keeps its labels in their order, new
    labels coming after them: no column is dropped or reordered. *)
Theorem table_after_any_outcome (p : params) (elements : DataFrame)
    (r : result Figure.t) (elements' : DataFrame) :
  periodic_table_plotly p elements = (r, elements') ->
  only_derived_changed elements elements'.
Proof.
  intros H. destruct r as [fig|e].
  - apply periodic_table_plotly_assembled in H.
    destruct H as [color elements1 col tiles a_sym a_num a_nam a_att
                   Hx Hy Hby Hlk _ _ _ _ _].
    apply display_only_derived; [|assumption].
    apply (colored_by_only_derived p elements elements1 color). assumption.
  - apply failure_cases in H.
    destruct H as [(_ & -> & _)
                  |(_ & _ & [(_ & -> & _)
                            |(color & elements1 & Hby & _ & Hst)])].
    + apply only_derived_changed_refl.
    + apply only_derived_changed_refl.
    + pose proof (colored_by_only_derived p elements elements1 color Hby)
        as H1.
      destruct Hst as [->|(col & Hlk & ->)].
      * assumption.
      * apply display_only_derived; assumption.
Qed.

End Frame.

(** ** The returned chart *)

Lemma create_tile_OK_inv (element : Series) (color : string)
    (x_offset y_offset : option float) (tile : Shape.t) :
  create_tile element color x_offset y_offset = OK tile ->
  Shape.type tile = "rect"
  /\ Shape.opacity tile = 0.8%float
  /\ Shape.fillcolor tile = Shape.line_color tile
  /\ getitem element color = OK (Shape.fillcolor tile).
Proof.
  unfold create_tile, py_sub, py_add.
  destruct (getitem element "x") as [vx|]; [|discriminate]. simpl.
  destruct (as_float vx) as [x|]; [|discriminate]. simpl.
  destruct (getitem element "y") as [vy|]; [|discriminate]. simpl.
  destruct (as_float vy) as [y|]; [|discriminate]. simpl.
  destruct (getitem element color) as [c|]; [|discriminate]. simpl.
  intros H. injection H as <-. simpl. repeat split.
Qed.

Lemma create_annotation_OK_inv (row : Series) (attr : string)
    (size : option Z) (x_offset y_offset : option float)
    (a : Annotation.t) :
  create_annotation row attr size x_offset y_offset = OK a ->
  Annotation.xref a = "x" /\ Annotation.yref a = "y"
  /\ Annotation.showarrow a = false
  /\ Annotation.font a = Font.mk "Roboto" (dflt 10%Z size) "#333333"
  /\ Annotation.align a = "center"
  /\ Annotation.opacity a = 0.9%float
  /\ getitem row attr = OK (Annotation.text a).
Proof.
  unfold create_annotation, py_add.
  destruct (getitem row "x") as [vx|]; [|discriminate]. simpl.
  destruct (as_float vx) as [x|]; [|discriminate]. simpl.
  destruct (getitem row "y") as [vy|]; [|discriminate]. simpl.
  destruct (as_float vy) as [y|]; [|discriminate]. simpl.
  destruct (getitem row attr) as [c|]; [|discriminate]. simpl.
  intros H. injection H as <-. simpl. repeat split.
Qed.

Lemma mapM_Forall {A B : Type} (f : A -> result B) (P : B -> Prop)
    (l : list A) (bs : list B) :
  (forall a b, f a = OK b -> P b) ->
  mapM f l = OK bs -> Forall P bs.
Proof.
  intros HP H. apply mapM_Forall2 in H.
  induction H as [|a b l' bs' Hab _ IH]; constructor; eauto.
Qed.

Lemma iterrows_nth_error_inv (elements : DataFrame) (i : nat) (row : Series) :
  nth_error (iterrows elements) i = Some row ->
  (i < nrows elements)%nat /\ row = row_at elements i.
Proof.
  intros H.
  assert (Hi : (i < nrows elements)%nat).
  { rewrite <- iterrows_length. apply nth_error_Some. congruence. }
  split; [assumption|].
  rewrite (iterrows_nth_error elements i Hi) in H. congruence.
Qed.

Section Returned.

Variable colormap_column :
  DataFrame -> string -> string -> string -> result (list string).

Local Abbreviation periodic_table_plotly :=
  (periodic_table_plotly colormap_column).
Local Abbreviation colored_by := (colored_by colormap_column).

(** X10: every chart the call returns carries the template
    "plotly_white" and the height, width and title it was asked for;
    both axes have their grid hidden and their range fixed; the x axis
    is drawn on the top side and has no title; the y axis is titled
    "Period". *)
Theorem returned_chart_layout (p : params) (elements : DataFrame)
    (fig : Figure.t) (elements2 : DataFrame) :
  periodic_table_plotly p elements = (OK fig, elements2) ->
  Figure.template fig = Some "plotly_white"
  /\ Figure.height fig = Some (height p)
  /\ Figure.width fig = Some (width p)
  /\ Figure.title fig = Some (title p)
  /\ Axis.showgrid (Figure.xaxis fig) = Some false
  /\ Axis.fixedrange (Figure.xaxis fig) = Some true
  /\ Axis.side (Figure.xaxis fig) = Some "top"
  /\ Axis.title (Figure.xaxis fig) = None
  /\ Axis.showgrid (Figure.yaxis fig) = Some false
  /\ Axis.fixedrange (Figure.yaxis fig) = Some true
  /\ Axis.side (Figure.yaxis fig) = None
  /\ Axis.title (Figure.yaxis fig) = Some "Period".
Proof.
  intros H. apply periodic_table_plotly_assembled in H.
  destruct H. simpl. repeat split.
Qed.

(** X11: every chart the call returns, for a valid table or not, has one
    tile per row of the table and four annotations per row.  Every tile
    is a rectangle of opacity 0.8 whose fill is its outline colour; every
    annotation is anchored on the axes "x" and "y", has no arrow, is
    centred, has opacity 0.9 and is set in Roboto, colour #333333. *)
Theorem returned_chart_is_uniform (p : params) (elements : DataFrame)
    (fig : Figure.t) (elements2 : DataFrame) :
  periodic_table_plotly p elements = (OK fig, elements2) ->
  List.length (Figure.shapes fig) = nrows elements
  /\ List.length (Figure.annotations fig) = (4 * nrows elements)%nat
  /\ Forall (fun tile =>
              Shape.type tile = "rect"
              /\ Shape.opacity tile = 0.8%float
              /\ Shape.fillcolor tile = Shape.line_color tile)
           (Figure.shapes fig)
  /\ Forall (fun a =>
              Annotation.xref a = "x" /\ Annotation.yref a = "y"
              /\ Annotation.showarrow a = false
              /\ Annotation.align a = "center"
              /\ Annotation.opacity a = 0.9%float
              /\ Font.family (Annotation.font a) = "Roboto"
              /\ Font.color (Annotation.font a) = "#333333")
           (Figure.annotations fig).
Proof.
  intros H. apply periodic_table_plotly_assembled in H.
  destruct H as [color elements1 col tiles a_sym a_num a_nam a_att
                 Hx Hy Hby Hlk Htiles Hsym Hnum Hnam Hatt].
  destruct (colored_by_table colormap_column p elements elements1 color Hby)
    as (Hn & _).
  pose proof (mapM_length _ _ _ Htiles) as Ltiles.
  pose proof (mapM_length _ _ _ Hsym) as Lsym.
  pose proof (mapM_length _ _ _ Hnum) as Lnum.
  pose proof (mapM_length _ _ _ Hnam) as Lnam.
  pose proof (mapM_length _ _ _ Hatt) as Latt.
  rewrite iterrows_length in *. simpl in Latt.
  cbn [Figure.shapes Figure.annotations].
  split; [lia|]. split; [rewrite !length_app; lia|]. split.
  - apply (mapM_Forall _ _ _ _ (fun row tile Hrow =>
             let H := create_tile_OK_inv row color None None tile Hrow in
             conj (proj1 H) (conj (proj1 (proj2 H))
                                  (proj1 (proj2 (proj2 H))))) Htiles).
  - assert (Hstyle : forall row attr size xo yo a,
              create_annotation row attr size xo yo = OK a ->
              Annotation.xref a = "x" /\ Annotation.yref a = "y"
              /\ Annotation.showarrow a = false
              /\ Annotation.align a = "center"
              /\ Annotation.opacity a = 0.9%float
              /\ Font.family (Annotation.font a) = "Roboto"
              /\ Font.color (Annotation.font a) = "#333333").
    { intros row attr size xo yo a Ha.
      apply create_annotation_OK_inv in Ha.
      destruct Ha as (? & ? & ? & Hf & ? & ? & _).
      rewrite Hf. simpl. repeat split; assumption. }
    repeat (apply Forall_app; split).
    + eapply mapM_Forall; [|exact Hsym].
      intros row a Ha. cbv beta in Ha. eapply Hstyle. exact Ha.
    + eapply mapM_Forall; [|exact Hnum].
      intros row a Ha. cbv beta in Ha. eapply Hstyle. exact Ha.
    + eapply mapM_Forall; [|exact Hnam].
      intros row a Ha. cbv beta in Ha. eapply Hstyle. exact Ha.
    + eapply mapM_Forall; [|exact Hatt].
      intros row a Ha. cbv beta in Ha. eapply Hstyle. exact Ha.
Qed.

End Returned.

(** ** What a tile and an annotation show *)

Lemma pass_font_size (attr : string) (size : option Z)
    (x_offset y_offset : option float) (rows : list Series)
    (anns : list Annotation.t) (i : nat) (a : Annotation.t) :
  mapM (fun row => create_annotation row attr size x_offset y_offset) rows
  = OK anns ->
  nth_error anns i = Some a ->
  Font.size (Annotation.font a) = dflt 10%Z size.
Proof.
  intros H Hi.
  destruct (mapM_OK_inv_nth _ _ _ i a H Hi) as (row & _ & Ha).
  apply create_annotation_OK_inv in Ha.
  destruct Ha as (_ & _ & _ & Hf & _). rewrite Hf. reflexivity.
Qed.

Lemma pass_text (elements : DataFrame) (attr : string) (size : option Z)
    (x_offset y_offset : option float) (anns : list Annotation.t)
    (i : nat) (a : Annotation.t) :
  mapM (fun row => create_annotation row attr size x_offset y_offset)
       (iterrows elements) = OK anns ->
  nth_error anns i = Some a ->
  (i < nrows elements)%nat
  /\ getitem (row_at elements i) attr = OK (Annotation.text a).
Proof.
  intros H Hi.
  destruct (mapM_OK_inv_nth _ _ _ i a H Hi) as (row & Hrow & Ha).
  apply iterrows_nth_error_inv in Hrow. destruct Hrow as [Hlt ->].
  apply create_annotation_OK_inv in Ha.
  destruct Ha as (_ & _ & _ & _ & _ & _ & Ht). auto.
Qed.

Section Shown.

Variable colormap_column :
  DataFrame -> string -> string -> string -> result (list string).

Local Abbreviation periodic_table_plotly :=
  (periodic_table_plotly colormap_column).
Local Abbreviation colored_by := (colored_by colormap_column).

(** X12: in a returned chart the font size of an annotation follows from
    its position: 16 for the first N annotations (the symbols), 10 for
    the next N (the atomic numbers), 7 for the last 2 N (names and
    displayed values), N being the number of rows. *)
Theorem annotation_font_sizes (p : params) (elements : DataFrame)
    (fig : Figure.t) (elements2 : DataFrame) (i : nat) (a : Annotation.t) :
  periodic_table_plotly p elements = (OK fig, elements2) ->
  nth_error (Figure.annotations fig) i = Some a ->
  Font.size (Annotation.font a)
  = (if (i <? nrows elements)%nat then 16
     else if (i <? 2 * nrows elements)%nat then 10
     else 7)%Z.
Proof.
  intros H Hi. apply periodic_table_plotly_assembled in H.
  destruct H as [color elements1 col tiles a_sym a_num a_nam a_att
                 Hx Hy Hby Hlk Htiles Hsym Hnum Hnam Hatt].
  destruct (colored_by_table colormap_column p elements elements1 color Hby)
    as (Hn & _).
  pose proof (mapM_length _ _ _ Hsym) as Lsym.
  pose proof (mapM_length _ _ _ Hnum) as Lnum.
  pose proof (mapM_length _ _ _ Hnam) as Lnam.
  rewrite iterrows_length, Hn in Lsym, Lnum, Lnam.
  cbn [Figure.annotations] in Hi.
  destruct (Nat.ltb_spec i (nrows elements)) as [H1|H1].
  - rewrite nth_error_app1 in Hi by lia.
    apply (pass_font_size _ _ _ _ _ _ _ _ Hsym Hi).
  - rewrite nth_error_app2 in Hi by lia. rewrite Lsym in Hi.
    destruct (Nat.ltb_spec i (2 * nrows elements)) as [H2|H2].
    + rewrite nth_error_app1 in Hi by lia.
      apply (pass_font_size _ _ _ _ _ _ _ _ Hnum Hi).
    + rewrite nth_error_app2 in Hi by lia. rewrite Lnum in Hi.
      destruct (Nat.ltb_spec (i - nrows elements - nrows elements)
                             (nrows elements)) as [H3|H3].
      * rewrite nth_error_app1 in Hi by lia.
        apply (pass_font_size _ _ _ _ _ _ _ _ Hnam Hi).
      * rewrite nth_error_app2 in Hi by lia.
        apply (pass_font_size _ _ _ _ _ _ _ _ Hatt Hi).
Qed.

(** X13: when the tiles are coloured by attribute, the tile of row [i] of
    a returned chart is filled and outlined with the [i]-th colour the
    colour mapper gave, whatever colour column the table had. *)
Theorem tiles_take_mapped_colors (p : params) (elements : DataFrame)
    (fig : Figure.t) (elements2 : DataFrame) :
  periodic_table_plotly p elements = (OK fig, elements2) ->
  colorby p = "attribute" ->
  exists colored,
    colormap_column elements (attribute p) (cmap p) (missing p) = OK colored
    /\ List.length colored = List.length (Figure.shapes fig)
    /\ forall i tile,
         nth_error (Figure.shapes fig) i = Some tile ->
         exists c,
           nth_error colored i = Some c
           /\ Shape.fillcolor tile = VStr c
           /\ Shape.line_color tile = VStr c.
Proof.
  intros H Hattr. apply periodic_table_plotly_assembled in H.
  destruct H as [color elements1 col tiles a_sym a_num a_nam a_att
                 Hx Hy Hby Hlk Htiles Hsym Hnum Hnam Hatt].
  unfold colored_by in Hby. rewrite Hattr in Hby. simpl in Hby.
  destruct Hby as (colored & Hcm & Hlen & -> & ->).
  exists colored. split; [assumption|].
  pose proof (mapM_length _ _ _ Htiles) as Ltiles.
  rewrite iterrows_length in Ltiles. simpl in Ltiles.
  cbn [Figure.shapes]. split; [lia|].
  intros i tile Hi.
  destruct (mapM_OK_inv_nth _ _ _ i tile Htiles Hi) as (row & Hrow & Ht).
  apply iterrows_nth_error_inv in Hrow. destruct Hrow as [Hlt ->].
  simpl in Hlt.
  apply create_tile_OK_inv in Ht. destruct Ht as (_ & _ & Hfill & Hget).
  rewrite getitem_row_at in Hget. simpl in Hget.
  rewrite lookup_assign_eq in Hget. simpl in Hget.
  injection Hget as Hget.
  destruct (nth_error colored i) as [c|] eqn:Hc.
  - exists c. split; [reflexivity|].
    assert (Hv : nth i (map VStr colored) VNone = VStr c).
    { apply nth_error_nth. rewrite nth_error_map, Hc. reflexivity. }
    rewrite <- Hfill, <- Hget, Hv. auto.
  - apply nth_error_None in Hc. lia.
Qed.

(** X14: the text of the fourth annotation of row [i] in a returned chart
    is the displayed value of the attribute: for an attribute column of
    dtype float64 the value rounded to [decimals] decimals, for a column
    of dtype object the value as it is in the table. *)
Theorem displayed_value_text (p : params) (elements : DataFrame)
    (fig : Figure.t) (elements2 : DataFrame) (i : nat) (a : Annotation.t) :
  periodic_table_plotly p elements = (OK fig, elements2) ->
  attribute p <> "attribute_color" ->
  nth_error (Figure.annotations fig) (3 * nrows elements + i) = Some a ->
  (forall l x,
     lookup (columns elements) (attribute p) = Some (FloatCol l) ->
     nth_error l i = Some x ->
     Annotation.text a = VFloat (np_round (decimals p) x))
  /\ (forall l v,
        lookup (columns elements) (attribute p) = Some (ObjCol l) ->
        nth_error l i = Some v ->
        Annotation.text a = v).
Proof.
  intros H Hne Hi. apply periodic_table_plotly_assembled in H.
  destruct H as [color elements1 col tiles a_sym a_num a_nam a_att
                 Hx Hy Hby Hlk Htiles Hsym Hnum Hnam Hatt].
  destruct (colored_by_table colormap_column p elements elements1 color Hby)
    as (Hn & Hkeep & _).
  rewrite (Hkeep _ Hne) in Hlk.
  pose proof (mapM_length _ _ _ Hsym) as Lsym.
  pose proof (mapM_length _ _ _ Hnum) as Lnum.
  pose proof (mapM_length _ _ _ Hnam) as Lnam.
  rewrite iterrows_length, Hn in Lsym, Lnum, Lnam.
  cbn [Figure.annotations] in Hi.
  replace (3 * nrows elements + i)%nat
    with (nrows elements + (nrows elements + (nrows elements + i)))%nat
    in Hi by lia.
  rewrite (nth_error_app_offset a_sym _ _ _ Lsym) in Hi.
  rewrite (nth_error_app_offset a_num _ _ _ Lnum) in Hi.
  rewrite (nth_error_app_offset a_nam _ _ _ Lnam) in Hi.
  destruct (pass_text _ _ _ _ _ _ _ _ Hatt Hi) as [_ Ht].
  rewrite getitem_row_at in Ht. simpl in Ht.
  rewrite lookup_assign_eq in Ht. injection Ht as Ht.
  split.
  - intros l x Hl Hnth. rewrite Hl in Hlk. injection Hlk as <-.
    rewrite <- Ht. simpl. f_equal.
    apply nth_error_nth. rewrite nth_error_map, Hnth. reflexivity.
  - intros l v Hl Hv. rewrite Hl in Hlk. injection Hlk as <-.
    rewrite <- Ht. simpl.
    apply nth_error_nth. assumption.
Qed.

End Shown.

(** ** Calling twice, and missing attribute values *)

Lemma assign_idem (cols : list (string * column)) (key : string)
    (c c' : column) :
  assign (assign cols key c) key c' = assign cols key c'.
Proof.
  induction cols as [|[k c0] t IH]; simpl.
  - rewrite String.eqb_refl. reflexivity.
  - destruct (String.eqb k key) eqn:E; simpl; rewrite E.
    + reflexivity.
    + rewrite IH. reflexivity.
Qed.

Lemma mul_nan (f : float) : (nan * f)%float = nan.
Proof. apply Prim2SF_inj. rewrite mul_spec. reflexivity. Qed.

Lemma div_nan (f : float) : (nan / f)%float = nan.
Proof. apply Prim2SF_inj. rewrite div_spec. reflexivity. Qed.

(** A missing number rounds to a missing number. *)
Lemma np_round_nan (decimals : Z) : np_round decimals nan = nan.
Proof.
  unfold np_round. destruct (0 <=? decimals)%Z.
  - rewrite mul_nan. replace (rint nan) with nan by reflexivity.
    apply div_nan.
  - rewrite div_nan. replace (rint nan) with nan by reflexivity.
    apply mul_nan.
Qed.

Section Again.

Variable colormap_column :
  DataFrame -> string -> string -> string -> result (list string).

Local Abbreviation periodic_table_plotly :=
  (periodic_table_plotly colormap_column).
Local Abbreviation valid_input := (valid_input colormap_column).
Local Abbreviation colored_by := (colored_by colormap_column).

(** X15: the table a call leaves behind can be drawn again.  When the
    tiles are coloured by a column of the table and the attribute is not
    the display column itself, a second call with the same arguments on
    the table left by the first returns a chart and leaves that table
    exactly as it found it. *)
Theorem second_call_keeps_table (p : params) (elements : DataFrame)
    (fig : Figure.t) (elements2 : DataFrame) :
  valid_input elements p = true ->
  colorby p <> "attribute" ->
  attribute p <> "display_attribute" ->
  periodic_table_plotly p elements = (OK fig, elements2) ->
  exists fig', periodic_table_plotly p elements2 = (OK fig', elements2).
Proof.
  intros Hv Hc Ha H.
  apply periodic_table_plotly_assembled in H.
  destruct H as [color elements1 col tiles a_sym a_num a_nam a_att
                 Hx Hy Hby Hlk _ _ _ _ _].
  assert (Hcb : String.eqb (colorby p) "attribute" = false)
    by (apply String.eqb_neq; assumption).
  unfold colored_by in Hby. rewrite Hcb in Hby. destruct Hby as [-> ->].
  set (elements2 := df_setitem elements "display_attribute"
                      (display_column col (decimals p))).
  destruct (valid_input_parts colormap_column p elements Hv)
    as (Hwf & Hnx & Hny & Hs & Hn & Hm & Hat & Hcol).
  rewrite Hcb in Hcol.
  assert (Hwf2 : well_formed elements2 = true).
  { apply well_formed_setitem; [assumption|].
    rewrite display_column_length.
    apply (well_formed_lookup elements (attribute p)); assumption. }
  assert (Hnx2 : has_numeric elements2 "x" = true)
    by (unfold elements2; rewrite has_numeric_setitem by discriminate;
        assumption).
  assert (Hny2 : has_numeric elements2 "y" = true)
    by (unfold elements2; rewrite has_numeric_setitem by discriminate;
        assumption).
  assert (Hv2 : valid_input elements2 p = true).
  { unfold valid_input. rewrite Hcb, Hwf2, Hnx2, Hny2.
    unfold elements2.
    rewrite !in_columns_setitem by assumption. reflexivity. }
  destruct (valid_input_returns colormap_column p elements2 Hv2)
    as (fig' & elements3 & Hrun & Hasm).
  exists fig'. rewrite Hrun. f_equal.
  destruct Hasm as [color' elements1' col' tiles' s' n' m' t'
                    _ _ Hby' Hlk' _ _ _ _ _].
  unfold colored_by in Hby'. rewrite Hcb in Hby'. destruct Hby' as [-> ->].
  unfold elements2 in Hlk'. simpl in Hlk'.
  rewrite lookup_assign_neq in Hlk' by assumption.
  rewrite Hlk in Hlk'. injection Hlk' as <-.
  unfold elements2, df_setitem. simpl. rewrite assign_idem. reflexivity.
Qed.

(** X16: a missing attribute value stays missing.  When the attribute
    column has dtype float64 and holds [nan] at row [i], the display
    column of the table after a successful call holds [nan] at row [i],
    for every number of decimals. *)
Theorem missing_value_stays_missing (p : params) (elements : DataFrame)
    (fig : Figure.t) (elements2 : DataFrame) (l : list float) (i : nat) :
  periodic_table_plotly p elements = (OK fig, elements2) ->
  attribute p <> "attribute_color" ->
  lookup (columns elements) (attribute p) = Some (FloatCol l) ->
  nth_error l i = Some nan ->
  exists l',
    lookup (columns elements2) "display_attribute" = Some (FloatCol l')
    /\ nth_error l' i = Some nan
    /\ List.length l' = List.length l.
Proof.
  intros H Hne Hl Hi. apply periodic_table_plotly_assembled in H.
  destruct H as [color elements1 col tiles a_sym a_num a_nam a_att
                 Hx Hy Hby Hlk _ _ _ _ _].
  destruct (colored_by_table colormap_column p elements elements1 color Hby)
    as (_ & Hkeep & _).
  rewrite (Hkeep _ Hne), Hl in Hlk. injection Hlk as <-.
  exists (map (np_round (decimals p)) l).
  split; [simpl; apply lookup_assign_eq|].
  split; [|apply length_map].
  rewrite nth_error_map, Hi. simpl. rewrite np_round_nan. reflexivity.
Qed.

End Again.

(** ** The scale plotter: the display name *)

Lemma list_ascii_of_string_app (s t : string) :
  list_ascii_of_string (s ++ t)
  = (list_ascii_of_string s ++ list_ascii_of_string t)%list.
Proof.
  induction s as [|c s IH]; simpl; [reflexivity|].
  rewrite IH. reflexivity.
Qed.

Lemma lstrip_list_clean (chars : string) (l : list ascii) :
  head_in chars l = false -> lstrip_list chars l = l.
Proof.
  destruct l as [|c t]; simpl; [reflexivity|].
  intros ->. reflexivity.
Qed.

Lemma lstrip_list_snoc (chars : string) (l : list ascii) (c : ascii) :
  mem_char c chars = true ->
  lstrip_list chars (l ++ [c])%list
  = match lstrip_list chars l with
    | [] => []
    | c' :: t => ((c' :: t) ++ [c])%list
    end.
Proof.
  intros Hc. induction l as [|a l IH]; simpl.
  - rewrite Hc. reflexivity.
  - destruct (mem_char a chars); [assumption|reflexivity].
Qed.

Lemma strip_cons (s chars : string) (c : ascii) :
  mem_char c chars = true -> strip (String c s) chars = strip s chars.
Proof. intros Hc. unfold strip. simpl. rewrite Hc. reflexivity. Qed.

Lemma strip_snoc (s chars : string) (c : ascii) :
  mem_char c chars = true ->
  strip (s ++ String c EmptyString) chars = strip s chars.
Proof.
  intros Hc. unfold strip. rewrite list_ascii_of_string_app. simpl.
  rewrite (lstrip_list_snoc chars _ c Hc).
  destruct (lstrip_list chars (list_ascii_of_string s)) as [|c' t];
    [reflexivity|].
  rewrite rev_app_distr. simpl. rewrite Hc. reflexivity.
Qed.

Lemma strip_clean (s chars : string) :
  clean_ends chars s = true -> strip s chars = s.
Proof.
  unfold clean_ends, strip. intros H.
  apply andb_prop in H. destruct H as [H1 H2].
  apply negb_true_iff in H1. apply negb_true_iff in H2.
  rewrite (lstrip_list_clean _ _ H1), (lstrip_list_clean _ _ H2).
  rewrite rev_involutive. apply string_of_list_ascii_of_string.
Qed.

Lemma split_no_sep (s : string) (sep : ascii) :
  contains sep s = false -> split s sep = [s].
Proof.
  induction s as [|c s IH]; simpl; [reflexivity|].
  intros H. apply orb_false_elim in H. destruct H as [Hc Hs].
  rewrite Hc, (IH Hs). reflexivity.
Qed.

Lemma split_words (s : string) (sep : ascii) (w : string) :
  In w (split s sep) -> contains sep w = false.
Proof.
  revert w. induction s as [|c s IH]; simpl; intros w Hw.
  - destruct Hw as [<-|[]]. reflexivity.
  - destruct (Ascii.eqb c sep) eqn:Hc.
    + destruct Hw as [<-|Hw]; [reflexivity|]. apply IH. assumption.
    + destruct (split s sep) as [|w0 ws] eqn:Hsplit.
      * destruct Hw as [<-|[]]. simpl. rewrite Hc. reflexivity.
      * destruct Hw as [<-|Hw].
        -- simpl. rewrite Hc. apply IH. left. reflexivity.
        -- apply IH. right. assumption.
Qed.

Lemma to_upper_underscore (c : ascii) :
  Ascii.eqb c "_" = false -> Ascii.eqb (to_upper c) "_" = false.
Proof.
  destruct c as [[] [] [] [] [] [] [] []]; intros H;
    solve [reflexivity | discriminate H].
Qed.

Lemma to_lower_underscore (c : ascii) :
  Ascii.eqb c "_" = false -> Ascii.eqb (to_lower c) "_" = false.
Proof.
  destruct c as [[] [] [] [] [] [] [] []]; intros H;
    solve [reflexivity | discriminate H].
Qed.

Lemma lower_underscore (s : string) :
  contains "_" s = false -> contains "_" (lower s) = false.
Proof.
  induction s as [|c s IH]; simpl; [reflexivity|].
  intros H. apply orb_false_elim in H. destruct H as [Hc Hs].
  rewrite (to_lower_underscore c Hc), (IH Hs). reflexivity.
Qed.

Lemma capitalize_underscore (s : string) :
  contains "_" s = false -> contains "_" (capitalize s) = false.
Proof.
  destruct s as [|c s]; simpl; [reflexivity|].
  intros H. apply orb_false_elim in H. destruct H as [Hc Hs].
  rewrite (to_upper_underscore c Hc), (lower_underscore s Hs). reflexivity.
Qed.

Lemma contains_app (c : ascii) (s t : string) :
  contains c (s ++ t) = contains c s || contains c t.
Proof.
  induction s as [|c' s IH]; simpl; [reflexivity|].
  rewrite IH. apply orb_assoc.
Qed.

Lemma contains_join (c : ascii) (sep : string) (words : list string) :
  contains c sep = false ->
  (forall w, In w words -> contains c w = false) ->
  contains c (join sep words) = false.
Proof.
  unfold join. intros Hsep. induction words as [|w ws IH]; intros Hall.
  - reflexivity.
  - simpl. destruct ws as [|w' ws'].
    + apply Hall. left. reflexivity.
    + rewrite !contains_app, Hsep, (Hall w (or_introl eq_refl)). simpl.
      apply IH. intros w0 Hw0. apply Hall. right. assumption.
Qed.

(** X19: for an identifier made of the prefix "en_" and a name that
    neither starts nor ends with one of the characters e, n and _, the
    display name is the name with its words capitalized and joined by
    "-"; when the name has no underscore it is the name capitalized. *)
Theorem scale_name_of_prefixed (w : string) :
  clean_ends "en_" w = true ->
  scale_name ("en_" ++ w) = join "-" (map capitalize (split w "_"%char))
  /\ (contains "_" w = false -> scale_name ("en_" ++ w) = capitalize w).
Proof.
  intros H.
  assert (Hs : strip ("en_" ++ w) "en_" = w).
  { simpl. rewrite !strip_cons by reflexivity. apply strip_clean. exact H. }
  unfold scale_name. rewrite Hs. split; [reflexivity|].
  intros Hw. rewrite (split_no_sep w "_" Hw). reflexivity.
Qed.

(** X20: the prefix is optional, and more than the prefix is taken: a
    leading e, n or _ never shows in the display name, so an identifier
    names the same scale with or without "en_" in front. *)
Theorem scale_name_ignores_leading (s : string) :
  scale_name ("en_" ++ s) = scale_name s
  /\ forall c, mem_char c "en_" = true ->
       scale_name (String c s) = scale_name s.
Proof.
  unfold scale_name. split.
  - simpl. rewrite !strip_cons by reflexivity. reflexivity.
  - intros c Hc. rewrite (strip_cons s "en_" c Hc). reflexivity.
Qed.

(** X21: a trailing e, n or _ of the identifier never shows in the
    display name: the identifier with such a character appended has the
    display name of the identifier without it. *)
Theorem scale_name_drops_trailing (s : string) (c : ascii) :
  mem_char c "en_" = true ->
  scale_name (s ++ String c EmptyString) = scale_name s.
Proof.
  intros Hc. unfold scale_name. rewrite (strip_snoc s "en_" c Hc).
  reflexivity.
Qed.

(** X22: the display name never contains an underscore, whatever the
    identifier. *)
Theorem scale_name_no_underscore (scale : string) :
  contains "_" (scale_name scale) = false.
Proof.
  unfold scale_name. apply contains_join; [reflexivity|].
  intros w Hw. apply in_map_iff in Hw. destruct Hw as (w0 & <- & Hw0).
  apply capitalize_underscore. apply (split_words _ _ _ Hw0).
Qed.

(** ** The scale plotter: the chart *)

(** X17: [plot_scale] returns a chart exactly when the table has a column
    named as the scale and a column named "symbol". *)
Theorem plot_scale_returns_iff (data : DataFrame) (scale : string) :
  (exists fig, plot_scale data scale = OK fig)
  <-> in_columns data scale = true /\ in_columns data "symbol" = true.
Proof.
  unfold plot_scale, px_scatter. split.
  - intros [fig H].
    destruct (lookup (columns data) scale) as [ycol|] eqn:Hy;
      [|discriminate].
    destruct (lookup (columns data) "symbol") as [tcol|] eqn:Ht;
      [|discriminate].
    split; apply in_columns_lookup; eauto.
  - intros [Hy Ht].
    apply in_columns_lookup in Hy. destruct Hy as [ycol Hy].
    apply in_columns_lookup in Ht. destruct Ht as [tcol Ht].
    rewrite Hy, Ht. simpl. eexists. reflexivity.
Qed.

(** X18: the chart [plot_scale] returns plots the scale column against
    the row index with the "symbol" column as labels placed top centre;
    it is 600 by 1400 on the "plotly_white" template; its x axis is
    titled "Atomic Number", spans 0 to 119 and has no zero line; its y
    axis is titled with the display name, and the chart with the display
    name followed by "'s Electronegativity". *)
Theorem plot_scale_chart (data : DataFrame) (scale : string)
    (fig : Scatter.t) :
  plot_scale data scale = OK fig ->
  lookup (columns data) scale = Some (Scatter.y fig)
  /\ lookup (columns data) "symbol" = Some (Scatter.text fig)
  /\ Scatter.template fig = "plotly_white"
  /\ Scatter.height fig = 600%Z /\ Scatter.width fig = 1400%Z
  /\ Scatter.textposition fig = Some "top center"
  /\ Scatter.textfont_size fig = Some 10%Z
  /\ Scatter.marker_size fig = Some 8%Z
  /\ Scatter.marker_color fig = Some "#0081a7"
  /\ Scatter.font_size fig = Some 12%Z
  /\ Scatter.xaxis_title fig = Some "Atomic Number"
  /\ Scatter.xaxis_zeroline fig = Some false
  /\ Scatter.xaxis_range fig = Some [0; 119]%Z
  /\ Scatter.yaxis_title fig = Some (scale_name scale)
  /\ Scatter.title fig = scale_name scale ++ "'s Electronegativity".
Proof.
  unfold plot_scale, px_scatter. intros H.
  destruct (lookup (columns data) scale) as [ycol|]; [|discriminate].
  destruct (lookup (columns data) "symbol") as [tcol|]; [|discriminate].
  simpl in H. injection H as <-. simpl. repeat split.
Qed.

(** ** The further properties on the example tables *)

Lemma table_after_any_outcome_example :
  periodic_table_plotly plain_colormap by_attribute_params no_symbol_elements
  = (Raise (KeyError "symbol"),
     df_setitem no_symbol_elements "attribute_color"
       (ObjCol [VStr "#ffffff"; VStr "#ffffff"]))
  /\ only_derived_changed no_symbol_elements
       (df_setitem no_symbol_elements "attribute_color"
          (ObjCol [VStr "#ffffff"; VStr "#ffffff"])).
Proof.
  split; [reflexivity|].
  apply (table_after_any_outcome plain_colormap by_attribute_params
           no_symbol_elements (Raise (KeyError "symbol"))).
  reflexivity.
Defined.

Lemma returned_chart_layout_example :
  exists fig elements2,
    periodic_table_plotly plain_colormap default_params two_elements
    = (OK fig, elements2)
    /\ Figure.template fig = Some "plotly_white"
    /\ Figure.height fig = Some 800%Z
    /\ Figure.width fig = Some 1200%Z
    /\ Figure.title fig = Some "Periodic Table".
Proof.
  destruct (valid_input_returns plain_colormap default_params two_elements
              eq_refl) as (fig & elements2 & Hrun & _).
  exists fig, elements2. split; [exact Hrun|].
  destruct (returned_chart_layout plain_colormap default_params two_elements
              fig elements2 Hrun) as (Ht & Hh & Hw & Hti & _).
  repeat split; assumption.
Defined.

Lemma returned_chart_is_uniform_example :
  exists fig elements2,
    periodic_table_plotly plain_colormap default_params two_elements
    = (OK fig, elements2)
    /\ List.length (Figure.shapes fig) = 2%nat
    /\ List.length (Figure.annotations fig) = 8%nat.
Proof.
  destruct (valid_input_returns plain_colormap default_params two_elements
              eq_refl) as (fig & elements2 & Hrun & _).
  exists fig, elements2. split; [exact Hrun|].
  destruct (returned_chart_is_uniform plain_colormap default_params
              two_elements fig elements2 Hrun) as (Hs & Ha & _).
  split; assumption.
Defined.

Lemma annotation_font_sizes_example :
  exists fig elements2,
    periodic_table_plotly plain_colormap default_params two_elements
    = (OK fig, elements2)
    /\ forall a, nth_error (Figure.annotations fig) 3 = Some a ->
         Font.size (Annotation.font a) = 10%Z.
Proof.
  destruct (valid_input_returns plain_colormap default_params two_elements
              eq_refl) as (fig & elements2 & Hrun & _).
  exists fig, elements2. split; [exact Hrun|].
  intros a Ha.
  apply (annotation_font_sizes plain_colormap default_params two_elements
           fig elements2 3 a Hrun Ha).
Defined.

Lemma tiles_take_mapped_colors_example :
  exists fig elements2,
    periodic_table_plotly plain_colormap by_attribute_params two_elements
    = (OK fig, elements2)
    /\ forall tile, nth_error (Figure.shapes fig) 1 = Some tile ->
         Shape.fillcolor tile = VStr "#ffffff".
Proof.
  destruct (valid_input_returns plain_colormap by_attribute_params
              two_elements eq_refl) as (fig & elements2 & Hrun & _).
  exists fig, elements2. split; [exact Hrun|].
  intros tile Ht.
  destruct (tiles_take_mapped_colors plain_colormap by_attribute_params
              two_elements fig elements2 Hrun eq_refl)
    as (colored & Hcm & _ & Hall).
  injection Hcm as <-.
  destruct (Hall 1%nat tile Ht) as (c & Hc & Hfill & _).
  injection Hc as <-. exact Hfill.
Defined.

Lemma displayed_value_text_example :
  exists fig elements2,
    periodic_table_plotly plain_colormap value_params float_elements
    = (OK fig, elements2)
    /\ forall a, nth_error (Figure.annotations fig) 6 = Some a ->
         Annotation.text a = VFloat 7.12%float.
Proof.
  destruct (valid_input_returns plain_colormap value_params float_elements
              eq_refl) as (fig & elements2 & Hrun & _).
  exists fig, elements2. split; [exact Hrun|].
  intros a Ha.
  destruct (displayed_value_text plain_colormap value_params float_elements
              fig elements2 0 a Hrun ltac:(discriminate) Ha) as [Hf _].
  apply (Hf [7.1234; 4.002602]%float 7.1234%float eq_refl eq_refl).
Defined.

Lemma second_call_keeps_table_example :
  exists fig elements2 fig',
    periodic_table_plotly plain_colormap default_params two_elements
    = (OK fig, elements2)
    /\ periodic_table_plotly plain_colormap default_params elements2
       = (OK fig', elements2).
Proof.
  destruct (valid_input_returns plain_colormap default_params two_elements
              eq_refl) as (fig & elements2 & Hrun & _).
  destruct (second_call_keeps_table plain_colormap default_params
              two_elements fig elements2 eq_refl
              ltac:(discriminate) ltac:(discriminate) Hrun)
    as (fig' & Hrun').
  exists fig, elements2, fig'. split; assumption.
Defined.

Lemma missing_value_stays_missing_example :
  exists fig elements2 l',
    periodic_table_plotly plain_colormap default_params nan_weight_elements
    = (OK fig, elements2)
    /\ lookup (columns elements2) "display_attribute" = Some (FloatCol l')
    /\ nth_error l' 1 = Some nan.
Proof.
  destruct (valid_input_returns plain_colormap default_params
              nan_weight_elements eq_refl) as (fig & elements2 & Hrun & _).
  destruct (missing_value_stays_missing plain_colormap default_params
              nan_weight_elements fig elements2 [1.008; nan]%float 1
              Hrun ltac:(discriminate) eq_refl eq_refl)
    as (l' & Hl & Hn & _).
  exists fig, elements2, l'. repeat split; assumption.
Defined.

Lemma scale_name_of_prefixed_example :
  scale_name "en_pauling" = "Pauling"
  /\ scale_name "en_allred_rochow" = "Allred-Rochow".
Proof.
  split.
  - apply (proj2 (scale_name_of_prefixed "pauling" eq_refl)). reflexivity.
  - apply (proj1 (scale_name_of_prefixed "allred_rochow" eq_refl)).
Defined.

Lemma scale_name_drops_trailing_example :
  scale_name "en_mulliken" = scale_name "en_mullike".
Proof.
  apply (scale_name_drops_trailing "en_mullike" "n" eq_refl).
Defined.

Lemma plot_scale_chart_example :
  exists fig,
    plot_scale scales_data "en_pauling" = OK fig
    /\ Scatter.y fig = FloatCol [2.2; nan]%float
    /\ Scatter.title fig = "Pauling's Electronegativity".
Proof.
  destruct (plot_scale_returns scales_data "en_pauling"
              (FloatCol [2.2; nan]%float) (ObjCol [VStr "H"; VStr "He"])
              eq_refl eq_refl) as [fig Hfig].
  exists fig. split; [exact Hfig|].
  destruct (plot_scale_chart scales_data "en_pauling" fig Hfig)
    as (Hy & _ & _ & _ & _ & _ & _ & _ & _ & _ & _ & _ & _ & _ & Ht).
  split.
  - simpl in Hy. injection Hy as <-. reflexivity.
  - rewrite Ht. reflexivity.
Defined.

(** * Returned descriptors and returned charts

    Plotly checks the arguments of a descriptor and of a layout, and
    pandas checks an assignment into an existing column; a call that they
    refuse raises and returns nothing.  The properties below are
    therefore stated of the descriptor or chart that a call returns. *)

(** ** The descriptor builders *)

Lemma row_number_eq (row : Series) (key : string) (v : value) (x : float) :
  getitem row key = OK v -> as_float v = OK x -> row_number row key = OK x.
Proof. unfold row_number. intros -> Hx. exact Hx. Qed.

Lemma create_tile_OK_eq (element : Series) (color : string)
    (x_offset y_offset : option float) (tile : Shape.t) :
  create_tile element color x_offset y_offset = OK tile ->
  exists x y c,
    row_number element "x" = OK x /\ row_number element "y" = OK y
    /\ getitem element color = OK c
    /\ tile = Shape.mk "rect"
                (x - dflt 0.45 x_offset)%float (y - dflt 0.45 y_offset)%float
                (x + dflt 0.45 x_offset)%float (y + dflt 0.45 y_offset)%float
                c c 0.8%float.
Proof.
  unfold create_tile, py_sub, py_add, row_number.
  destruct (getitem element "x") as [vx|]; [|discriminate]. simpl.
  destruct (as_float vx) as [x|]; [|discriminate]. simpl.
  destruct (getitem element "y") as [vy|]; [|discriminate]. simpl.
  destruct (as_float vy) as [y|]; [|discriminate]. simpl.
  destruct (getitem element color) as [c|]; [|discriminate]. simpl.
  intros H. injection H as <-. exists x, y, c. repeat split.
Qed.

Lemma create_annotation_OK_eq (row : Series) (attr : string)
    (size : option Z) (x_offset y_offset : option float)
    (a : Annotation.t) :
  create_annotation row attr size x_offset y_offset = OK a ->
  exists x y v,
    row_number row "x" = OK x /\ row_number row "y" = OK y
    /\ getitem row attr = OK v
    /\ a = Annotation.mk
             (x + dflt 0.0 x_offset)%float (y + dflt 0.0 y_offset)%float
             "x" "y" v false (Font.mk "Roboto" (dflt 10%Z size) "#333333")
             "center" 0.9%float.
Proof.
  unfold create_annotation, py_add, row_number.
  destruct (getitem row "x") as [vx|]; [|discriminate]. simpl.
  destruct (as_float vx) as [x|]; [|discriminate]. simpl.
  destruct (getitem row "y") as [vy|]; [|discriminate]. simpl.
  destruct (as_float vy) as [y|]; [|discriminate]. simpl.
  destruct (getitem row attr) as [v|]; [|discriminate]. simpl.
  intros H. injection H as <-. exists x, y, v. repeat split.
Qed.

Lemma OK_inj {A : Type} (a b : A) : OK a = OK b -> a = b.
Proof. intros H. injection H as ->. reflexivity. Qed.

(** C6: for a row with numeric [x] and [y] and a colour field [color],
    the tile that [create_tile] returns with the default half-extents is
    the rectangle spanning [x - 0.45, x + 0.45] by [y - 0.45, y + 0.45],
    with outline and fill both the row's value at [color] and opacity
    0.8; for [x = 1], [y = 1] it spans 0.55 to 1.45 on both axes. *)
Theorem create_tile_default_extents (element : Series) (color : string)
    (vx vy c : value) (x y : float) (tile : Shape.t) :
  getitem element "x" = OK vx -> as_float vx = OK x ->
  getitem element "y" = OK vy -> as_float vy = OK y ->
  getitem element color = OK c ->
  create_tile element color None None = OK tile ->
  tile = Shape.mk "rect" (x - 0.45)%float (y - 0.45)%float
                  (x + 0.45)%float (y + 0.45)%float c c 0.8%float
  /\ (x = 1%float -> y = 1%float ->
      tile = Shape.mk "rect" 0.55%float 0.55%float 1.45%float 1.45%float
                      c c 0.8%float).
Proof.
  intros Hx Hfx Hy Hfy Hc Htile.
  apply create_tile_OK_eq in Htile.
  destruct Htile as (x' & y' & c' & Hx' & Hy' & Hc' & ->).
  rewrite (row_number_eq _ _ _ _ Hx Hfx) in Hx'. apply OK_inj in Hx'.
  rewrite (row_number_eq _ _ _ _ Hy Hfy) in Hy'. apply OK_inj in Hy'.
  rewrite Hc in Hc'. apply OK_inj in Hc'. subst x' y' c'.
  simpl. split; [reflexivity|].
  intros -> ->. reflexivity.
Qed.

(** C7: for a row with numeric [x] and [y] and a field [attr] present in
    it, the annotation that [create_annotation] returns is the text
    descriptor placed at [(x + x_offset, y + y_offset)] on the axes "x"
    and "y", whose text is the row's value at [attr], with no arrow,
    centred, opacity 0.9; an omitted size is 10 and an omitted offset is
    0. *)
Theorem create_annotation_descriptor (row : Series) (attr : string)
    (vx vy v : value) (x y : float) :
  getitem row "x" = OK vx -> as_float vx = OK x ->
  getitem row "y" = OK vy -> as_float vy = OK y ->
  getitem row attr = OK v ->
  (forall (size : Z) (x_offset y_offset : float) (a : Annotation.t),
     create_annotation row attr (Some size) (Some x_offset) (Some y_offset)
     = OK a ->
     a = Annotation.mk (x + x_offset)%float (y + y_offset)%float "x" "y"
           v false (Font.mk "Roboto" size "#333333") "center" 0.9%float)
  /\ (forall (size : option Z) (x_offset y_offset : option float),
        create_annotation row attr size x_offset y_offset =
        create_annotation row attr (Some (dflt 10%Z size))
          (Some (dflt 0.0%float x_offset)) (Some (dflt 0.0%float y_offset)))
  /\ (forall a : Annotation.t,
        create_annotation row attr None None None = OK a ->
        a = Annotation.mk (x + 0.0)%float (y + 0.0)%float "x" "y"
              v false (Font.mk "Roboto" 10%Z "#333333") "center" 0.9%float).
Proof.
  intros Hx Hfx Hy Hfy Hv.
  pose proof (row_number_eq _ _ _ _ Hx Hfx) as Rx.
  pose proof (row_number_eq _ _ _ _ Hy Hfy) as Ry.
  split; [|split].
  - intros size x_offset y_offset a Ha.
    apply create_annotation_OK_eq in Ha.
    destruct Ha as (x' & y' & v' & Hx' & Hy' & Hv' & ->).
    rewrite Rx in Hx'. apply OK_inj in Hx'.
    rewrite Ry in Hy'. apply OK_inj in Hy'.
    rewrite Hv in Hv'. apply OK_inj in Hv'. subst x' y' v'. reflexivity.
  - intros size x_offset y_offset. reflexivity.
  - intros a Ha.
    apply create_annotation_OK_eq in Ha.
    destruct Ha as (x' & y' & v' & Hx' & Hy' & Hv' & ->).
    rewrite Rx in Hx'. apply OK_inj in Hx'.
    rewrite Ry in Hy'. apply OK_inj in Hy'.
    rewrite Hv in Hv'. apply OK_inj in Hv'. subst x' y' v'. reflexivity.
Qed.

(** X1: [create_tile] returns a tile only for a row that has a number
    under "x", a number under "y" and a value under the colour field,
    whatever half-extents are passed. *)
Theorem create_tile_returns_only_if (element : Series) (color : string)
    (x_offset y_offset : option float) (tile : Shape.t) :
  create_tile element color x_offset y_offset = OK tile ->
  numeric_field element "x" = true
  /\ numeric_field element "y" = true
  /\ has_field element color = true.
Proof.
  intros H. unfold create_tile, py_sub, py_add in H.
  unfold numeric_field, has_field, numeric.
  destruct (getitem element "x") as [vx|]; [|discriminate].
  simpl in H.
  destruct (as_float vx) as [x|]; [|discriminate].
  simpl in H.
  destruct (getitem element "y") as [vy|]; [|discriminate].
  simpl in H.
  destruct (as_float vy) as [y|]; [|discriminate].
  simpl in H.
  destruct (getitem element color) as [c|]; [|discriminate].
  repeat split.
Qed.

(** X2: with half-extents given by the caller, the tile returned for a
    row with numeric [x] and [y] spans [x - x_offset, x + x_offset] by
    [y - y_offset, y + y_offset]; its outline colour and its fill colour
    are the same value, the row's value at the colour field, and its
    opacity is 0.8. *)
Theorem create_tile_custom_extents (element : Series) (color : string)
    (x_offset y_offset : float) (vx vy c : value) (x y : float)
    (tile : Shape.t) :
  getitem element "x" = OK vx -> as_float vx = OK x ->
  getitem element "y" = OK vy -> as_float vy = OK y ->
  getitem element color = OK c ->
  create_tile element color (Some x_offset) (Some y_offset) = OK tile ->
  Shape.x0 tile = (x - x_offset)%float
  /\ Shape.x1 tile = (x + x_offset)%float
  /\ Shape.y0 tile = (y - y_offset)%float
  /\ Shape.y1 tile = (y + y_offset)%float
  /\ Shape.line_color tile = c
  /\ Shape.fillcolor tile = c
  /\ Shape.opacity tile = 0.8%float.
Proof.
  intros Hx Hfx Hy Hfy Hc Htile.
  apply create_tile_OK_eq in Htile.
  destruct Htile as (x' & y' & c' & Hx' & Hy' & Hc' & ->).
  rewrite (row_number_eq _ _ _ _ Hx Hfx) in Hx'. apply OK_inj in Hx'.
  rewrite (row_number_eq _ _ _ _ Hy Hfy) in Hy'. apply OK_inj in Hy'.
  rewrite Hc in Hc'. apply OK_inj in Hc'. subst x' y' c'.
  simpl. repeat split.
Qed.

(** X3: how [create_tile] fails on its lookups.  A row without "x" gives
    [KeyError "x"], whatever else it holds; with a numeric "x", a row
    without "y" gives [KeyError "y"]; with both numeric, a row without
    the colour field gives the [KeyError] of that field; a string under
    "x" gives [TypeError]. *)
Theorem create_tile_failures (element : Series) (color : string)
    (x_offset y_offset : option float) :
  (has_field element "x" = false ->
   create_tile element color x_offset y_offset = Raise (KeyError "x"))
  /\ (numeric_field element "x" = true -> has_field element "y" = false ->
      create_tile element color x_offset y_offset = Raise (KeyError "y"))
  /\ (numeric_field element "x" = true -> numeric_field element "y" = true ->
      has_field element color = false ->
      create_tile element color x_offset y_offset = Raise (KeyError color))
  /\ (forall s, getitem element "x" = OK (VStr s) ->
      create_tile element color x_offset y_offset = Raise TypeError).
Proof.
  split; [|split; [|split]];
    unfold create_tile, py_sub, py_add, has_field, numeric_field, numeric.
  - destruct (getitem element "x") as [vx|e] eqn:Hx; [discriminate|].
    apply getitem_raise in Hx. subst e. reflexivity.
  - destruct (getitem element "x") as [vx|]; [|discriminate].
    simpl. destruct (as_float vx) as [x|]; [|discriminate].
    simpl. intros _.
    destruct (getitem element "y") as [vy|e] eqn:Hy; [discriminate|].
    apply getitem_raise in Hy. subst e. reflexivity.
  - destruct (getitem element "x") as [vx|]; [|discriminate].
    simpl. destruct (as_float vx) as [x|]; [|discriminate].
    simpl. intros _.
    destruct (getitem element "y") as [vy|]; [|discriminate].
    simpl. destruct (as_float vy) as [y|]; [|discriminate].
    simpl. intros _.
    destruct (getitem element color) as [c|e] eqn:Hc; [discriminate|].
    apply getitem_raise in Hc. subst e. reflexivity.
  - intros s ->. reflexivity.
Qed.

(** X4: [create_annotation] returns an annotation only for a row that has
    a number under "x", a number under "y" and a value under the
    displayed field, whatever size and offsets are passed. *)
Theorem create_annotation_returns_only_if (row : Series) (attr : string)
    (size : option Z) (x_offset y_offset : option float)
    (a : Annotation.t) :
  create_annotation row attr size x_offset y_offset = OK a ->
  numeric_field row "x" = true
  /\ numeric_field row "y" = true
  /\ has_field row attr = true.
Proof.
  intros H. unfold create_annotation, py_add in H.
  unfold numeric_field, has_field, numeric.
  destruct (getitem row "x") as [vx|]; [|discriminate].
  simpl in H.
  destruct (as_float vx) as [x|]; [|discriminate].
  simpl in H.
  destruct (getitem row "y") as [vy|]; [|discriminate].
  simpl in H.
  destruct (as_float vy) as [y|]; [|discriminate].
  simpl in H.
  destruct (getitem row attr) as [c|]; [|discriminate].
  repeat split.
Qed.

(** X5: how [create_annotation] fails on its lookups.  The coordinates
    are read before the displayed field: a row without "x" gives
    [KeyError "x"] even when the field is missing too; with numeric
    coordinates a missing field gives the [KeyError] of that field; a
    string under "y" gives [TypeError] when "x" is numeric. *)
Theorem create_annotation_failures (row : Series) (attr : string)
    (size : option Z) (x_offset y_offset : option float) :
  (has_field row "x" = false ->
   create_annotation row attr size x_offset y_offset = Raise (KeyError "x"))
  /\ (numeric_field row "x" = true -> numeric_field row "y" = true ->
      has_field row attr = false ->
      create_annotation row attr size x_offset y_offset
      = Raise (KeyError attr))
  /\ (forall s, numeric_field row "x" = true ->
      getitem row "y" = OK (VStr s) ->
      create_annotation row attr size x_offset y_offset = Raise TypeError).
Proof.
  split; [|split].
  - unfold create_annotation, has_field.
    destruct (getitem row "x") as [vx|e] eqn:Hx; [discriminate|].
    apply getitem_raise in Hx. subst e. reflexivity.
  - apply create_annotation_missing_field.
  - intros s Hx Hy. unfold create_annotation, py_add.
    apply numeric_field_iff in Hx. destruct Hx as (vx & x & -> & Hfx).
    simpl. rewrite Hfx. simpl. rewrite Hy. reflexivity.
Qed.

(** ** The charts the table assembler returns *)

(** The number read from a cell does not depend on the dtype the row is
    read in, as long as it can be read. *)
Lemma as_float_cell_dtype (d1 d2 : dtype) (c : column) (i : nat)
    (a b : float) :
  as_float (cell d1 c i) = OK a -> as_float (cell d2 c i) = OK b -> a = b.
Proof.
  destruct c as [l|l|l]; simpl.
  - congruence.
  - destruct d1, d2; simpl;
      repeat match goal with
        | |- context [is_infinity ?f] => destruct (is_infinity f)
        end; congruence.
  - congruence.
Qed.

Lemma row_number_setitem (elements : DataFrame) (label : string)
    (c : column) (key : string) (i : nat) (a b : float) :
  key <> label ->
  row_number (row_at (df_setitem elements label c) i) key = OK a ->
  row_number (row_at elements i) key = OK b ->
  a = b.
Proof.
  intros Hkey. unfold row_number. rewrite !getitem_row_at. simpl.
  rewrite lookup_assign_neq by assumption.
  destruct (lookup (columns elements) key) as [c'|]; [|discriminate].
  simpl. apply as_float_cell_dtype.
Qed.

(** Row [i] of a pass that went through. *)
Lemma pass_at (elements : DataFrame) (attr : string) (size : option Z)
    (x_offset y_offset : option float) (anns : list Annotation.t) (i : nat) :
  mapM (fun row => create_annotation row attr size x_offset y_offset)
       (iterrows elements) = OK anns ->
  (i < nrows elements)%nat ->
  exists x y v,
    row_number (row_at elements i) "x" = OK x
    /\ row_number (row_at elements i) "y" = OK y
    /\ getitem (row_at elements i) attr = OK v
    /\ nth_error anns i
       = Some (Annotation.mk
                 (x + dflt 0.0 x_offset)%float (y + dflt 0.0 y_offset)%float
                 "x" "y" v false
                 (Font.mk "Roboto" (dflt 10%Z size) "#333333")
                 "center" 0.9%float).
Proof.
  intros Hm Hi.
  destruct (mapM_nth_error _ _ _ i (row_at elements i) Hm
              (iterrows_nth_error elements i Hi)) as (a & Ha & Hrow).
  apply create_annotation_OK_eq in Hrow.
  destruct Hrow as (x & y & v & Hx & Hy & Hv & ->).
  exists x, y, v. auto.
Qed.

Lemma tiles_at (elements : DataFrame) (color : string)
    (tiles : list Shape.t) (i : nat) :
  mapM (fun row => create_tile row color None None) (iterrows elements)
  = OK tiles ->
  (i < nrows elements)%nat ->
  exists x y c,
    row_number (row_at elements i) "x" = OK x
    /\ row_number (row_at elements i) "y" = OK y
    /\ getitem (row_at elements i) color = OK c
    /\ nth_error tiles i
       = Some (Shape.mk "rect" (x - 0.45)%float (y - 0.45)%float
                 (x + 0.45)%float (y + 0.45)%float c c 0.8%float).
Proof.
  intros Hm Hi.
  destruct (mapM_nth_error _ _ _ i (row_at elements i) Hm
              (iterrows_nth_error elements i Hi)) as (a & Ha & Hrow).
  apply create_tile_OK_eq in Hrow.
  destruct Hrow as (x & y & c & Hx & Hy & Hc & ->).
  exists x, y, c. auto.
Qed.

Lemma numeric_cell_dtype (d1 d2 : dtype) (c : column) (i : nat) :
  d1 = object \/ d1 = d2 ->
  numeric (cell d1 c i) = true -> numeric (cell d2 c i) = true.
Proof.
  intros [->| ->]; [|trivial].
  destruct c as [l|l|l]; simpl; trivial.
  unfold numeric. simpl.
  destruct d2; simpl; trivial.
Qed.

Lemma common_dtype_assign_object (cols : list (string * column))
    (key : string) (l : list value) :
  common_dtype (assign cols key (ObjCol l)) = object.
Proof.
  unfold common_dtype.
  induction cols as [|[k c] t IH]; simpl.
  - reflexivity.
  - destruct (String.eqb k key); simpl.
    + reflexivity.
    + rewrite IH. destruct (col_dtype c); reflexivity.
Qed.

Lemma row_number_numeric (row : Series) (key : string) (x : float) :
  row_number row key = OK x -> numeric_field row key = true.
Proof.
  unfold row_number, numeric_field, numeric.
  destruct (getitem row key) as [v|]; [|discriminate].
  simpl. intros ->. reflexivity.
Qed.

Lemma getitem_in_columns (elements : DataFrame) (i : nat) (key : string)
    (v : value) :
  getitem (row_at elements i) key = OK v -> in_columns elements key = true.
Proof.
  rewrite getitem_row_at. intros H. apply in_columns_lookup.
  destruct (lookup (columns elements) key) as [c|]; [eauto|discriminate].
Qed.

Section Charts.

Variable colormap_column :
  DataFrame -> string -> string -> string -> result (list string).

Local Abbreviation periodic_table_plotly :=
  (periodic_table_plotly colormap_column).
Local Abbreviation colored_by := (colored_by colormap_column).

(** Row by row, what a returned chart holds. *)
Lemma returned_rows (p : params) (elements : DataFrame) (fig : Figure.t)
    (elements2 : DataFrame) :
  periodic_table_plotly p elements = (OK fig, elements2) ->
  exists color elements1,
    colored_by elements p color elements1
    /\ List.length (Figure.shapes fig) = nrows elements
    /\ List.length (Figure.annotations fig) = (4 * nrows elements)%nat
    /\ forall i, (i < nrows elements)%nat ->
       exists x y c v_symbol v_number v_name v_display,
         row_number (row_at elements1 i) "x" = OK x
         /\ row_number (row_at elements1 i) "y" = OK y
         /\ getitem (row_at elements1 i) color = OK c
         /\ getitem (row_at elements1 i) "symbol" = OK v_symbol
         /\ getitem (row_at elements1 i) "atomic_number" = OK v_number
         /\ getitem (row_at elements1 i) "name" = OK v_name
         /\ getitem (row_at elements2 i) "display_attribute" = OK v_display
         /\ nth_error (Figure.shapes fig) i
            = Some (Shape.mk "rect" (x - 0.45)%float (y - 0.45)%float
                      (x + 0.45)%float (y + 0.45)%float c c 0.8%float)
         /\ nth_error (Figure.annotations fig) i
            = Some (Annotation.mk (x + 0.0)%float (y + 0.0)%float "x" "y"
                      v_symbol false (Font.mk "Roboto" 16%Z "#333333")
                      "center" 0.9%float)
         /\ nth_error (Figure.annotations fig) (nrows elements + i)
            = Some (Annotation.mk (x + 0.0)%float (y + -0.3)%float "x" "y"
                      v_number false (Font.mk "Roboto" 10%Z "#333333")
                      "center" 0.9%float)
         /\ nth_error (Figure.annotations fig) (2 * nrows elements + i)
            = Some (Annotation.mk (x + 0.0)%float (y + 0.2)%float "x" "y"
                      v_name false (Font.mk "Roboto" 7%Z "#333333")
                      "center" 0.9%float)
         /\ nth_error (Figure.annotations fig) (3 * nrows elements + i)
            = Some (Annotation.mk (x + 0.0)%float (y + 0.35)%float "x" "y"
                      v_display false (Font.mk "Roboto" 7%Z "#333333")
                      "center" 0.9%float).
Proof.
  intros H. apply periodic_table_plotly_assembled in H.
  destruct H as [color elements1 col tiles a_sym a_num a_nam a_att
                 Hx Hy Hby Hlk Htiles Hsym Hnum Hnam Hatt].
  exists color, elements1. split; [exact Hby|].
  destruct (colored_by_table colormap_column p elements elements1 color Hby)
    as (Hn & _).
  pose proof (mapM_length _ _ _ Htiles) as Ltiles.
  pose proof (mapM_length _ _ _ Hsym) as Lsym.
  pose proof (mapM_length _ _ _ Hnum) as Lnum.
  pose proof (mapM_length _ _ _ Hnam) as Lnam.
  pose proof (mapM_length _ _ _ Hatt) as Latt.
  rewrite iterrows_length in Ltiles, Lsym, Lnum, Lnam, Latt.
  simpl in Latt. rewrite Hn in Ltiles, Lsym, Lnum, Lnam, Latt.
  cbn [Figure.shapes Figure.annotations].
  split; [exact Ltiles|].
  split; [rewrite !length_app; lia|].
  intros i Hi.
  assert (Hi1 : (i < nrows elements1)%nat) by lia.
  destruct (tiles_at elements1 color tiles i Htiles Hi1)
    as (x & y & c & Rx & Ry & Hc & Ht).
  destruct (pass_at elements1 _ _ _ _ a_sym i Hsym Hi1)
    as (x1 & y1 & v1 & Rx1 & Ry1 & Hv1 & Ha1).
  destruct (pass_at elements1 _ _ _ _ a_num i Hnum Hi1)
    as (x2 & y2 & v2 & Rx2 & Ry2 & Hv2 & Ha2).
  destruct (pass_at elements1 _ _ _ _ a_nam i Hnam Hi1)
    as (x3 & y3 & v3 & Rx3 & Ry3 & Hv3 & Ha3).
  destruct (pass_at _ _ _ _ _ a_att i Hatt Hi1)
    as (x4 & y4 & v4 & Rx4 & Ry4 & Hv4 & Ha4).
  rewrite Rx in Rx1, Rx2, Rx3. rewrite Ry in Ry1, Ry2, Ry3.
  apply OK_inj in Rx1, Rx2, Rx3, Ry1, Ry2, Ry3.
  subst x1 x2 x3 y1 y2 y3.
  assert (x4 = x)
    by (eapply (row_number_setitem elements1 "display_attribute" _ "x");
        [discriminate|exact Rx4|exact Rx]).
  assert (y4 = y)
    by (eapply (row_number_setitem elements1 "display_attribute" _ "y");
        [discriminate|exact Ry4|exact Ry]).
  subst x4 y4.
  simpl in Ha1, Ha2, Ha3, Ha4.
  exists x, y, c, v1, v2, v3, v4.
  repeat (split; [assumption|]).
  split.
  { rewrite nth_error_app1 by lia. exact Ha1. }
  split.
  { rewrite (nth_error_app_offset a_sym _ _ i Lsym).
    rewrite nth_error_app1 by lia. exact Ha2. }
  split.
  { replace (2 * nrows elements + i)%nat
      with (nrows elements + (nrows elements + i))%nat by lia.
    rewrite (nth_error_app_offset a_sym _ _ _ Lsym).
    rewrite (nth_error_app_offset a_num _ _ _ Lnum).
    rewrite nth_error_app1 by lia. exact Ha3. }
  replace (3 * nrows elements + i)%nat
    with (nrows elements + (nrows elements + (nrows elements + i)))%nat
    by lia.
  rewrite (nth_error_app_offset a_sym _ _ _ Lsym).
  rewrite (nth_error_app_offset a_num _ _ _ Lnum).
  rewrite (nth_error_app_offset a_nam _ _ _ Lnam).
  exact Ha4.
Qed.

(** A list of colours that does not have one colour per row is refused by
    the assignment, with a message of its own. *)
Lemma length_mismatch_run (p : params) (elements : DataFrame)
    (colored : list string) :
  in_columns elements "x" = true -> in_columns elements "y" = true ->
  colorby p = "attribute" ->
  colormap_column elements (attribute p) (cmap p) (missing p) = OK colored ->
  List.length colored <> nrows elements ->
  periodic_table_plotly p elements
  = (Raise (ValueError "Length of values does not match length of index"),
     elements).
Proof.
  intros Hx Hy Hc Hcm Hlen. apply Nat.eqb_neq in Hlen.
  unfold periodic_table_plotly, bind, table, raise, lift, loc_setitem, ret.
  cbn [existsb]. rewrite Hx, Hy, Hc. cbn [negb orb].
  rewrite String.eqb_refl, Hcm, length_map, Hlen. reflexivity.
Qed.

(** Where the configuration error can come from. *)
Lemma coordinate_error_inv (p : params) (elements elements' : DataFrame) :
  periodic_table_plotly p elements
  = (Raise (ValueError coordinates_required), elements') ->
  elements' = elements
  /\ (in_columns elements "x" = false
      \/ in_columns elements "y" = false
      \/ (colorby p = "attribute"
          /\ colormap_column elements (attribute p) (cmap p) (missing p)
             = Raise (ValueError coordinates_required))).
Proof.
  intros H. pose proof H as H0. apply failure_cases in H.
  destruct H as [(_ & -> & [Hx|Hy])
                |(Hx & Hy & [(Hc & -> & [Hcm|(colored & Hcm & Hlen & _)])
                            |(color & elements1 & _ & Hne & _)])].
  - auto.
  - auto.
  - auto.
  - rewrite (length_mismatch_run p elements colored Hx Hy Hc Hcm Hlen) in H0.
    unfold coordinates_required in H0. discriminate H0.
  - discriminate Hne.
Qed.

(** C5: every chart the call returns for a table of N rows holds exactly
    N tiles and 4 N annotations.  Tile [i] is the tile of row [i].  The
    annotations come in four passes of N, each in row order: at [i] the
    symbol of row [i], size 16, at the row's position; at [N + i] its
    atomic number, size 10, 0.3 lower in [y]; at [2 N + i] its name,
    size 7, 0.2 higher in [y]; at [3 N + i] its displayed attribute
    value, size 7, 0.35 higher in [y].  The rows are those of the table
    after the colouring step, the displayed value that of the final
    table. *)
Theorem chart_tiles_and_annotations (p : params) (elements : DataFrame)
    (fig : Figure.t) (elements2 : DataFrame) :
  periodic_table_plotly p elements = (OK fig, elements2) ->
  exists color elements1,
    colored_by elements p color elements1
    /\ List.length (Figure.shapes fig) = nrows elements
    /\ List.length (Figure.annotations fig) = (4 * nrows elements)%nat
    /\ forall i, (i < nrows elements)%nat ->
       exists x y c v_symbol v_number v_name v_display,
         row_number (row_at elements1 i) "x" = OK x
         /\ row_number (row_at elements1 i) "y" = OK y
         /\ getitem (row_at elements1 i) color = OK c
         /\ getitem (row_at elements1 i) "symbol" = OK v_symbol
         /\ getitem (row_at elements1 i) "atomic_number" = OK v_number
         /\ getitem (row_at elements1 i) "name" = OK v_name
         /\ getitem (row_at elements2 i) "display_attribute" = OK v_display
         /\ nth_error (Figure.shapes fig) i
            = Some (Shape.mk "rect" (x - 0.45)%float (y - 0.45)%float
                      (x + 0.45)%float (y + 0.45)%float c c 0.8%float)
         /\ nth_error (Figure.annotations fig) i
            = Some (Annotation.mk (x + 0.0)%float (y + 0.0)%float "x" "y"
                      v_symbol false (Font.mk "Roboto" 16%Z "#333333")
                      "center" 0.9%float)
         /\ nth_error (Figure.annotations fig) (nrows elements + i)
            = Some (Annotation.mk (x + 0.0)%float (y + -0.3)%float "x" "y"
                      v_number false (Font.mk "Roboto" 10%Z "#333333")
                      "center" 0.9%float)
         /\ nth_error (Figure.annotations fig) (2 * nrows elements + i)
            = Some (Annotation.mk (x + 0.0)%float (y + 0.2)%float "x" "y"
                      v_name false (Font.mk "Roboto" 7%Z "#333333")
                      "center" 0.9%float)
         /\ nth_error (Figure.annotations fig) (3 * nrows elements + i)
            = Some (Annotation.mk (x + 0.0)%float (y + 0.35)%float "x" "y"
                      v_display false (Font.mk "Roboto" 7%Z "#333333")
                      "center" 0.9%float).
Proof.
  intros H. apply returned_rows. exact H.
Qed.

(** C2, as the code has it: in every chart the call returns, without the
    wide layout the x ticks are 1..18, the y ticks 1..7, the x range
    [0.5, 18.5] and the y range [10.0, 0.5]; with the wide layout the x
    ticks are unset, the y ticks are still 1..7, and the ranges are
    [0.5, 32.5] and [7.5, 0.5]. *)
Theorem layout_axes (p : params) (elements : DataFrame) (fig : Figure.t)
    (elements2 : DataFrame) :
  periodic_table_plotly p elements = (OK fig, elements2) ->
  (wide_layout p = false ->
     Axis.tickvals (Figure.xaxis fig)
     = Some [1; 2; 3; 4; 5; 6; 7; 8; 9; 10; 11; 12; 13; 14; 15; 16;
             17; 18]%Z
     /\ Axis.tickvals (Figure.yaxis fig) = Some [1; 2; 3; 4; 5; 6; 7]%Z
     /\ Axis.range (Figure.xaxis fig) = Some [0.5; 18.5]%float
     /\ Axis.range (Figure.yaxis fig) = Some [10.0; 0.5]%float)
  /\ (wide_layout p = true ->
        Axis.tickvals (Figure.xaxis fig) = None
        /\ Axis.tickvals (Figure.yaxis fig) = Some [1; 2; 3; 4; 5; 6; 7]%Z
        /\ Axis.range (Figure.xaxis fig) = Some [0.5; 32.5]%float
        /\ Axis.range (Figure.yaxis fig) = Some [7.5; 0.5]%float).
Proof.
  intros H. apply periodic_table_plotly_assembled in H.
  destruct H. cbn [Figure.xaxis Figure.yaxis Axis.tickvals Axis.range].
  split; intros ->; repeat split.
Qed.

(** C3, as the code has it: whenever the call returns a chart, the
    display column of the table is derived from the attribute column as
    a whole.  A column of dtype float64 is rounded value by value to
    [decimals] decimals; a column of any other dtype, numbers in an
    [object] column included, is taken as it is.  So 7.1234 in a
    float64 column gives 7.12 with [decimals = 2], and "s-block" stays
    "s-block". *)
Theorem display_attribute_column (p : params) (elements : DataFrame)
    (fig : Figure.t) (elements2 : DataFrame) :
  periodic_table_plotly p elements = (OK fig, elements2) ->
  exists color elements1 col display,
    colored_by elements p color elements1
    /\ lookup (columns elements1) (attribute p) = Some col
    /\ lookup (columns elements2) "display_attribute" = Some display
    /\ (forall l, col = FloatCol l ->
          display = FloatCol (map (np_round (decimals p)) l))
    /\ (is_float_dtype col = false -> display = col)
    /\ (forall l i, col = FloatCol l -> decimals p = 2%Z ->
          nth_error l i = Some 7.1234%float ->
          nth_error (col_values display) i = Some (VFloat 7.12%float))
    /\ (forall l i, col = ObjCol l ->
          nth_error l i = Some (VStr "s-block") ->
          nth_error (col_values display) i = Some (VStr "s-block")).
Proof.
  intros H. apply periodic_table_plotly_assembled in H.
  destruct H as [color elements1 col tiles a_sym a_num a_nam a_att
                 Hx Hy Hby Hlk Htiles Hsym Hnum Hnam Hatt].
  exists color, elements1, col, (display_column col (decimals p)).
  split; [exact Hby|].
  split; [exact Hlk|].
  split; [simpl; apply lookup_assign_eq|].
  repeat split.
  - intros l ->. reflexivity.
  - intros Hf. unfold display_column. rewrite Hf. reflexivity.
  - intros l i -> Hd Hi. unfold display_column. simpl. rewrite Hd.
    rewrite nth_error_map, nth_error_map, Hi. reflexivity.
  - intros l i -> Hi. exact Hi.
Qed.

(** C8: whenever the call returns, it returns the populated chart, one
    tile and four annotations per row, and its effect on the table is
    the addition of the derived columns: the table stays well formed,
    the row count is kept, every column other than "display_attribute"
    and "attribute_color" is kept as it was, "attribute_color" too unless
    the tiles are coloured by attribute, and the column labels are the
    former ones, in their order, followed by the derived labels that
    were not there. *)
Theorem only_derived_columns_added (p : params) (elements : DataFrame)
    (fig : Figure.t) (elements2 : DataFrame) :
  periodic_table_plotly p elements = (OK fig, elements2) ->
  List.length (Figure.shapes fig) = nrows elements
  /\ List.length (Figure.annotations fig) = (4 * nrows elements)%nat
  /\ (well_formed elements = true -> well_formed elements2 = true)
  /\ nrows elements2 = nrows elements
  /\ (forall key,
        key <> "display_attribute" -> key <> "attribute_color" ->
        lookup (columns elements2) key = lookup (columns elements) key)
  /\ (colorby p <> "attribute" ->
        lookup (columns elements2) "attribute_color"
        = lookup (columns elements) "attribute_color")
  /\ map fst (columns elements2)
     = names_after
         (if String.eqb (colorby p) "attribute"
          then names_after (map fst (columns elements)) "attribute_color"
          else map fst (columns elements))
         "display_attribute".
Proof.
  intros H.
  destruct (returned_rows p elements fig elements2 H)
    as (_ & _ & _ & Lshapes & Lanns & _).
  split; [exact Lshapes|]. split; [exact Lanns|].
  apply periodic_table_plotly_assembled in H.
  destruct H as [color elements1 col tiles a_sym a_num a_nam a_att
                 Hx Hy Hby Hlk Htiles Hsym Hnum Hnam Hatt].
  destruct (colored_by_table colormap_column p elements elements1 color Hby)
    as (Hn & Hkeep & Hsame & Hnames).
  split.
  { intros Hwf.
    pose proof (colored_by_well_formed colormap_column p elements elements1
                  color Hby Hwf) as Hwf1.
    apply well_formed_setitem; [assumption|].
    rewrite display_column_length.
    apply (well_formed_lookup elements1 (attribute p)); assumption. }
  simpl. repeat split.
  - exact Hn.
  - intros key Hd Hc. rewrite lookup_assign_neq by assumption.
    apply Hkeep. assumption.
  - intros Hne. rewrite lookup_assign_neq by discriminate.
    rewrite (Hsame Hne). reflexivity.
  - rewrite assign_names, Hnames. reflexivity.
Qed.

(** C9: the derived columns have fixed labels.  Whenever the call
    returns, the column "display_attribute" of the table is the derived
    display column, whatever the table held under that label before;
    when the tiles are coloured by attribute the column "attribute_color"
    is the mapped colours, whatever the table held under that label
    before, and otherwise "attribute_color" is not touched.  A label
    that was already there is assigned in place: no column is added for
    it. *)
Theorem derived_columns_overwritten (p : params) (elements : DataFrame)
    (fig : Figure.t) (elements2 : DataFrame) :
  periodic_table_plotly p elements = (OK fig, elements2) ->
  exists color elements1 col,
    colored_by elements p color elements1
    /\ lookup (columns elements1) (attribute p) = Some col
    /\ lookup (columns elements2) "display_attribute"
       = Some (display_column col (decimals p))
    /\ (colorby p = "attribute" ->
          exists colored,
            colormap_column elements (attribute p) (cmap p) (missing p)
            = OK colored
            /\ lookup (columns elements2) "attribute_color"
               = Some (ObjCol (map VStr colored)))
    /\ (colorby p <> "attribute" ->
          lookup (columns elements2) "attribute_color"
          = lookup (columns elements) "attribute_color")
    /\ (in_columns elements "attribute_color" = true ->
          map fst (columns elements1) = map fst (columns elements))
    /\ (in_columns elements1 "display_attribute" = true ->
          map fst (columns elements2) = map fst (columns elements1)).
Proof.
  intros H. apply periodic_table_plotly_assembled in H.
  destruct H as [color elements1 col tiles a_sym a_num a_nam a_att
                 Hx Hy Hby Hlk Htiles Hsym Hnum Hnam Hatt].
  exists color, elements1, col.
  split; [exact Hby|]. split; [exact Hlk|].
  destruct (colored_by_table colormap_column p elements elements1 color Hby)
    as (Hn & Hkeep & Hsame & Hnames).
  simpl. repeat split.
  - apply lookup_assign_eq.
  - intros Hc. rewrite lookup_assign_neq by discriminate.
    unfold colored_by in Hby. rewrite Hc in Hby. simpl in Hby.
    destruct Hby as (colored & Hcm & _ & _ & ->).
    exists colored. split; [exact Hcm|].
    simpl. apply lookup_assign_eq.
  - intros Hne. rewrite lookup_assign_neq by discriminate.
    rewrite (Hsame Hne). reflexivity.
  - intros Hin. rewrite Hnames.
    destruct (String.eqb (colorby p) "attribute"); [|reflexivity].
    unfold names_after. unfold in_columns in Hin. rewrite Hin. reflexivity.
  - intros Hin. rewrite assign_names.
    unfold names_after. unfold in_columns in Hin. rewrite Hin. reflexivity.
Qed.


(** X7: the configuration error has two sources.  When the call raises
    it, the table is as it was, and either column "x" or column "y" is
    missing, or the tiles are coloured by attribute and the colour
    mapper raised it.  No later step of the call raises it. *)
Theorem coordinate_error_sources (p : params) (elements : DataFrame)
    (elements' : DataFrame) :
  periodic_table_plotly p elements
  = (Raise (ValueError coordinates_required), elements') ->
  elements' = elements
  /\ (in_columns elements "x" = false
      \/ in_columns elements "y" = false
      \/ (colorby p = "attribute"
          /\ in_columns elements "x" = true
          /\ in_columns elements "y" = true
          /\ colormap_column elements (attribute p) (cmap p) (missing p)
             = Raise (ValueError coordinates_required))).
Proof.
  intros H. apply coordinate_error_inv in H.
  destruct H as (He & H). split; [exact He|].
  destruct (in_columns elements "x"); [|auto].
  destruct (in_columns elements "y"); [|auto].
  destruct H as [H|[H|(Hc & Hcm)]]; try discriminate H.
  right. right. auto.
Qed.

(** X8: the columns a returned chart needs.  The call returns a chart
    only for a table that has the columns "x" and "y" and the attribute
    column (or is given the attribute "attribute_color" while colouring
    by attribute); on a table with at least one row it also needs the
    columns "symbol", "atomic_number" and "name", and the colour column
    when the tiles are not coloured by attribute. *)
Theorem returned_chart_needs_columns (p : params) (elements : DataFrame)
    (fig : Figure.t) (elements2 : DataFrame) :
  periodic_table_plotly p elements = (OK fig, elements2) ->
  in_columns elements "x" = true
  /\ in_columns elements "y" = true
  /\ (in_columns elements (attribute p) = true
      \/ (colorby p = "attribute" /\ attribute p = "attribute_color"))
  /\ ((0 < nrows elements)%nat ->
      in_columns elements "symbol" = true
      /\ in_columns elements "atomic_number" = true
      /\ in_columns elements "name" = true
      /\ (colorby p <> "attribute" ->
          in_columns elements (colorby p) = true)).
Proof.
  intros H.
  destruct (returned_rows p elements fig elements2 H)
    as (color & elements1 & Hby & _ & _ & Hrows).
  apply periodic_table_plotly_assembled in H.
  destruct H as [color' elements1' col tiles a_sym a_num a_nam a_att
                 Hx Hy Hby' Hlk _ _ _ _ _].
  split; [exact Hx|]. split; [exact Hy|].
  destruct (colored_by_table colormap_column p elements elements1 color Hby)
    as (_ & Hkeep & Hsame & _).
  destruct (colored_by_table colormap_column p elements elements1' color'
              Hby') as (_ & Hkeep' & Hsame' & _).
  split.
  - destruct (String.eqb (colorby p) "attribute") eqn:Hc.
    + apply String.eqb_eq in Hc.
      destruct (String.eqb (attribute p) "attribute_color") eqn:Ha.
      * apply String.eqb_eq in Ha. right. auto.
      * apply String.eqb_neq in Ha. left.
        apply in_columns_lookup. exists col.
        rewrite <- (Hkeep' _ Ha). exact Hlk.
    + apply String.eqb_neq in Hc. left.
      apply in_columns_lookup. exists col.
      rewrite <- (Hsame' Hc). exact Hlk.
  - intros Hn.
    destruct (Hrows 0%nat Hn)
      as (x & y & c & v1 & v2 & v3 & v4 & _ & _ & Hcol & Hv1 & Hv2 & Hv3
          & _).
    assert (Hin : forall key v, key <> "attribute_color" ->
              getitem (row_at elements1 0) key = OK v ->
              in_columns elements key = true).
    { intros key v Hkey Hv. apply getitem_in_columns in Hv.
      apply in_columns_lookup in Hv. destruct Hv as [c' Hc'].
      apply in_columns_lookup. exists c'.
      rewrite <- (Hkeep key Hkey). exact Hc'. }
    split; [apply (Hin _ v1); [discriminate|exact Hv1]|].
    split; [apply (Hin _ v2); [discriminate|exact Hv2]|].
    split; [apply (Hin _ v3); [discriminate|exact Hv3]|].
    intros Hne. pose proof (Hsame Hne) as He.
    unfold colored_by in Hby.
    destruct (String.eqb (colorby p) "attribute") eqn:Hc.
    + apply String.eqb_eq in Hc. contradiction.
    + destruct Hby as [-> _]. subst elements1.
      apply (getitem_in_columns elements 0 _ c). exact Hcol.
Qed.

(** X9: the numbers a returned chart needs.  The call returns a chart
    only for a table in which every row holds a number under "x" and a
    number under "y": a missing value in an [object] column or a string
    as a coordinate, in any row, means that no chart is returned. *)
Theorem returned_chart_needs_numbers (p : params) (elements : DataFrame)
    (fig : Figure.t) (elements2 : DataFrame) :
  periodic_table_plotly p elements = (OK fig, elements2) ->
  forall i, (i < nrows elements)%nat ->
    numeric_field (row_at elements i) "x" = true
    /\ numeric_field (row_at elements i) "y" = true.
Proof.
  intros H i Hi.
  destruct (returned_rows p elements fig elements2 H)
    as (color & elements1 & Hby & _ & _ & Hrows).
  destruct (Hrows i Hi)
    as (x & y & c & v1 & v2 & v3 & v4 & Rx & Ry & _).
  apply row_number_numeric in Rx, Ry.
  destruct (colored_by_table colormap_column p elements elements1 color Hby)
    as (_ & Hkeep & _).
  assert (Hd : common_dtype (columns elements1) = object
               \/ common_dtype (columns elements1)
                  = common_dtype (columns elements)).
  { unfold colored_by in Hby.
    destruct (String.eqb (colorby p) "attribute").
    - destruct Hby as (colored & _ & _ & _ & ->). left.
      simpl. apply common_dtype_assign_object.
    - destruct Hby as [_ ->]. right. reflexivity. }
  unfold numeric_field in *. rewrite !getitem_row_at in *.
  rewrite (Hkeep "x") in Rx by discriminate.
  rewrite (Hkeep "y") in Ry by discriminate.
  split.
  - destruct (lookup (columns elements) "x") as [cx|]; [|discriminate].
    apply (numeric_cell_dtype _ _ _ _ Hd Rx).
  - destruct (lookup (columns elements) "y") as [cy|]; [|discriminate].
    apply (numeric_cell_dtype _ _ _ _ Hd Ry).
Qed.

End Charts.

(** ** The same properties on the example rows and tables *)

Lemma create_tile_default_extents_example :
  exists tile,
    create_tile hydrogen_row "color" None None = OK tile
    /\ tile = Shape.mk "rect" 0.55%float 0.55%float 1.45%float 1.45%float
                (VStr "#ff6666") (VStr "#ff6666") 0.8%float.
Proof.
  eexists. split; [lazy; reflexivity|].
  apply (proj2 (create_tile_default_extents hydrogen_row "color"
                  (VInt 1) (VInt 1) (VStr "#ff6666") 1%float 1%float _
                  eq_refl eq_refl eq_refl eq_refl eq_refl eq_refl));
    reflexivity.
Defined.

Lemma create_annotation_descriptor_example :
  exists a,
    create_annotation hydrogen_row "symbol" None None None = OK a
    /\ a = Annotation.mk 1%float 1%float "x" "y" (VStr "H") false
             (Font.mk "Roboto" 10%Z "#333333") "center" 0.9%float.
Proof.
  eexists. split; [lazy; reflexivity|].
  apply (proj2 (proj2 (create_annotation_descriptor hydrogen_row "symbol"
                         (VInt 1) (VInt 1) (VStr "H") 1%float 1%float
                         eq_refl eq_refl eq_refl eq_refl eq_refl))).
  reflexivity.
Defined.

Lemma create_tile_returns_only_if_example :
  exists tile,
    create_tile hydrogen_row "color" None None = OK tile
    /\ numeric_field hydrogen_row "x" = true
    /\ numeric_field hydrogen_row "y" = true
    /\ has_field hydrogen_row "color" = true.
Proof.
  eexists. split; [lazy; reflexivity|].
  apply (create_tile_returns_only_if hydrogen_row "color" None None _
           eq_refl).
Defined.

Lemma create_tile_custom_extents_example :
  exists tile,
    create_tile hydrogen_row "color" (Some 0.5%float) (Some 0.25%float)
    = OK tile
    /\ Shape.x0 tile = 0.5%float /\ Shape.x1 tile = 1.5%float
    /\ Shape.y0 tile = 0.75%float /\ Shape.y1 tile = 1.25%float.
Proof.
  eexists. split; [lazy; reflexivity|].
  destruct (create_tile_custom_extents hydrogen_row "color"
              0.5%float 0.25%float (VInt 1) (VInt 1) (VStr "#ff6666")
              1%float 1%float _
              eq_refl eq_refl eq_refl eq_refl eq_refl eq_refl)
    as (Hx0 & Hx1 & Hy0 & Hy1 & _).
  repeat split; assumption.
Defined.

Lemma create_annotation_returns_only_if_example :
  exists a,
    create_annotation hydrogen_row "name" (Some 7%Z) None (Some 0.2%float)
    = OK a
    /\ numeric_field hydrogen_row "x" = true
    /\ numeric_field hydrogen_row "y" = true
    /\ has_field hydrogen_row "name" = true.
Proof.
  eexists. split; [lazy; reflexivity|].
  apply (create_annotation_returns_only_if hydrogen_row "name" (Some 7%Z)
           None (Some 0.2%float) _ eq_refl).
Defined.

Lemma chart_tiles_and_annotations_example :
  exists fig elements2,
    periodic_table_plotly plain_colormap default_params two_elements
    = (OK fig, elements2)
    /\ List.length (Figure.shapes fig) = 2%nat
    /\ List.length (Figure.annotations fig) = 8%nat
    /\ nth_error (Figure.shapes fig) 1
       = Some (Shape.mk "rect" (18 - 0.45)%float (1 - 0.45)%float
                 (18 + 0.45)%float (1 + 0.45)%float
                 (VStr "#c0ffff") (VStr "#c0ffff") 0.8%float)
    /\ nth_error (Figure.annotations fig) 3
       = Some (Annotation.mk 18%float (1 + -0.3)%float "x" "y" (VInt 2)
                 false (Font.mk "Roboto" 10%Z "#333333") "center"
                 0.9%float).
Proof.
  destruct (valid_input_returns plain_colormap default_params two_elements
              eq_refl) as (fig & elements2 & Hrun & _).
  exists fig, elements2. split; [exact Hrun|].
  destruct (chart_tiles_and_annotations plain_colormap default_params
              two_elements fig elements2 Hrun)
    as (color & elements1 & Hby & Hshapes & Hanns & Hrows).
  split; [exact Hshapes|]. split; [exact Hanns|].
  destruct Hby as [-> ->].
  destruct (Hrows 1%nat ltac:(simpl; lia))
    as (x & y & c & v1 & v2 & v3 & v4 & Rx & Ry & Hc & _ & Hv2 & _ & _
        & Ht & _ & Ha2 & _).
  apply (OK_inj 18%float x) in Rx. apply (OK_inj 1%float y) in Ry.
  apply (OK_inj (VStr "#c0ffff") c) in Hc.
  apply (OK_inj (VInt 2) v2) in Hv2.
  subst x y c v2. split; [exact Ht|exact Ha2].
Defined.

Lemma layout_axes_example :
  exists fig elements2,
    periodic_table_plotly plain_colormap wide_params two_elements
    = (OK fig, elements2)
    /\ Axis.tickvals (Figure.xaxis fig) = None
    /\ Axis.tickvals (Figure.yaxis fig) = Some [1; 2; 3; 4; 5; 6; 7]%Z
    /\ Axis.range (Figure.xaxis fig) = Some [0.5; 32.5]%float
    /\ Axis.range (Figure.yaxis fig) = Some [7.5; 0.5]%float.
Proof.
  destruct (valid_input_returns plain_colormap wide_params two_elements
              eq_refl) as (fig & elements2 & Hrun & _).
  exists fig, elements2. split; [exact Hrun|].
  apply (proj2 (layout_axes plain_colormap wide_params two_elements
                  fig elements2 Hrun)).
  reflexivity.
Defined.

Lemma display_attribute_column_example :
  exists fig elements2,
    periodic_table_plotly plain_colormap value_params float_elements
    = (OK fig, elements2)
    /\ lookup (columns elements2) "display_attribute"
       = Some (FloatCol [7.12; 4.0]%float).
Proof.
  destruct (valid_input_returns plain_colormap value_params float_elements
              eq_refl) as (fig & elements2 & Hrun & _).
  exists fig, elements2. split; [exact Hrun|].
  destruct (display_attribute_column plain_colormap value_params
              float_elements fig elements2 Hrun)
    as (color & elements1 & col & display
        & Hby & Hcol & Hdisplay & Hfloat & _).
  destruct Hby as [_ ->].
  injection Hcol as <-.
  rewrite Hdisplay, (Hfloat _ eq_refl). reflexivity.
Defined.

Lemma only_derived_columns_added_example :
  exists fig elements2,
    periodic_table_plotly plain_colormap by_attribute_params two_elements
    = (OK fig, elements2)
    /\ nrows elements2 = 2%nat
    /\ map fst (columns elements2)
       = (map fst (columns two_elements)
          ++ ["attribute_color"; "display_attribute"])%list.
Proof.
  destruct (valid_input_returns plain_colormap by_attribute_params
              two_elements eq_refl) as (fig & elements2 & Hrun & _).
  exists fig, elements2. split; [exact Hrun|].
  destruct (only_derived_columns_added plain_colormap by_attribute_params
              two_elements fig elements2 Hrun)
    as (_ & _ & _ & Hn & _ & _ & Hnames).
  split; assumption.
Defined.

Lemma derived_columns_overwritten_example :
  exists fig elements2,
    periodic_table_plotly plain_colormap by_attribute_params reused_elements
    = (OK fig, elements2)
    /\ lookup (columns elements2) "attribute_color"
       = Some (ObjCol [VStr "#ffffff"; VStr "#ffffff"])
    /\ map fst (columns elements2) = map fst (columns reused_elements).
Proof.
  destruct (valid_input_returns plain_colormap by_attribute_params
              reused_elements eq_refl) as (fig & elements2 & Hrun & _).
  exists fig, elements2. split; [exact Hrun|].
  destruct (derived_columns_overwritten plain_colormap by_attribute_params
              reused_elements fig elements2 Hrun)
    as (color & elements1 & col & _ & _ & _ & Hcolor & _ & Hn1 & Hn2).
  destruct (Hcolor eq_refl) as (colored & Hcm & Hlk).
  apply (OK_inj _ colored) in Hcm. subst colored.
  split; [exact Hlk|].
  rewrite Hn2, Hn1; [reflexivity|reflexivity|].
  unfold in_columns. rewrite (Hn1 eq_refl). reflexivity.
Defined.


Lemma coordinate_error_sources_example :
  periodic_table_plotly plain_colormap default_params no_y_elements
  = (Raise (ValueError coordinates_required), no_y_elements)
  /\ in_columns no_y_elements "y" = false.
Proof.
  split; [reflexivity|].
  destruct (coordinate_error_sources plain_colormap default_params
              no_y_elements no_y_elements eq_refl)
    as (_ & [Hx|[Hy|(Hc & _)]]).
  - discriminate Hx.
  - exact Hy.
  - discriminate Hc.
Defined.

Lemma returned_chart_needs_columns_example :
  exists fig elements2,
    periodic_table_plotly plain_colormap default_params two_elements
    = (OK fig, elements2)
    /\ in_columns two_elements "symbol" = true
    /\ in_columns two_elements "atomic_number" = true
    /\ in_columns two_elements "name" = true.
Proof.
  destruct (valid_input_returns plain_colormap default_params two_elements
              eq_refl) as (fig & elements2 & Hrun & _).
  exists fig, elements2. split; [exact Hrun|].
  destruct (returned_chart_needs_columns plain_colormap default_params
              two_elements fig elements2 Hrun) as (_ & _ & _ & Hrows).
  destruct (Hrows ltac:(simpl; lia)) as (Hs & Ha & Hn & _).
  repeat split; assumption.
Defined.

Lemma returned_chart_needs_numbers_example :
  exists fig elements2,
    periodic_table_plotly plain_colormap by_attribute_params two_elements
    = (OK fig, elements2)
    /\ numeric_field (row_at two_elements 1) "x" = true
    /\ numeric_field (row_at two_elements 1) "y" = true.
Proof.
  destruct (valid_input_returns plain_colormap by_attribute_params
              two_elements eq_refl) as (fig & elements2 & Hrun & _).
  exists fig, elements2. split; [exact Hrun|].
  apply (returned_chart_needs_numbers plain_colormap by_attribute_params
           two_elements fig elements2 Hrun 1%nat).
  simpl. lia.
Defined.
